(** * ServerStriker: the monitoring daemon of [main.py], embedded and verified

    The development follows [main.py] function by function.  Text is a
    [string] of bytes; every answer the operating system gives to the daemon
    (metric samples, subprocess output, file-system faults, clock readings,
    the webhook's reply) is a field of an environment record [Env], and the
    files the daemon owns or edits are fields of the [World] it threads
    through its calls.  A Python exception is the [Raise] outcome of a
    computation; [try ... except] is [try_except].

    Model boundary.  Log files hold byte text whose only line terminator is
    the newline (text-mode translation of carriage returns is not modelled),
    [str.lower] and [str.strip] act on the ASCII range, and [log_message] is
    total: the one failure its source handles, [PermissionError], is the one
    failure the model gives it. *)

From Stdlib Require Import String Ascii List Bool Arith ZArith NArith Lia.
From Stdlib Require Import DecimalString Sorted OrderedTypeEx.
Import ListNotations.
Open Scope string_scope.
Open Scope nat_scope.

Set Implicit Arguments.

(* ================================================================== *)
(** ** Python string operations *)
(* ================================================================== *)

Module Text.

Definition newline : ascii := "010"%char.

Definition is_newline (c : ascii) : bool := Ascii.eqb c newline.

(** [str.isspace] on the ASCII range: tab, newline, vertical tab, form
    feed, carriage return, the four separators 0x1c-0x1f and the space. *)
Definition is_space (c : ascii) : bool :=
  let n := nat_of_ascii c in
  ((9 <=? n) && (n <=? 13)) || ((28 <=? n) && (n <=? 31)) || (n =? 32).

(** The line boundaries of [str.splitlines] on the ASCII range. *)
Definition is_line_boundary (c : ascii) : bool :=
  let n := nat_of_ascii c in
  ((10 <=? n) && (n <=? 13)) || ((28 <=? n) && (n <=? 30)).

(** [pat in s] *)
Fixpoint contains (pat s : string) : bool :=
  String.prefix pat s ||
  match s with
  | EmptyString => false
  | String _ s' => contains pat s'
  end.

Definition lower_char (c : ascii) : ascii :=
  let n := nat_of_ascii c in
  if (65 <=? n) && (n <=? 90) then ascii_of_nat (n + 32) else c.

(** [s.lower()] *)
Fixpoint lower (s : string) : string :=
  match s with
  | EmptyString => EmptyString
  | String c s' => String (lower_char c) (lower s')
  end.

Fixpoint lstrip (s : string) : string :=
  match s with
  | EmptyString => EmptyString
  | String c s' => if is_space c then lstrip s' else s
  end.

Definition is_empty (s : string) : bool :=
  match s with EmptyString => true | _ => false end.

Fixpoint rstrip (s : string) : string :=
  match s with
  | EmptyString => EmptyString
  | String c s' =>
      let r := rstrip s' in
      if is_space c && is_empty r then EmptyString else String c r
  end.

(** [s.strip()] *)
Definition strip (s : string) : string := rstrip (lstrip s).

(** [s.split(sep)] for a one-character separator: never the empty list. *)
Fixpoint split (sep : ascii) (s : string) : list string :=
  match s with
  | EmptyString => [EmptyString]
  | String c s' =>
      if Ascii.eqb c sep then EmptyString :: split sep s'
      else match split sep s' with
           | [] => [String c EmptyString]
           | h :: t => String c h :: t
           end
  end.

(** Lines without their terminators and without a final empty line:
    [str.splitlines] with [is_line_boundary], and the lines [grep] sees
    with [is_newline]. *)
Fixpoint split_lines (boundary : ascii -> bool) (s : string) : list string :=
  match s with
  | EmptyString => []
  | String c s' =>
      if boundary c then EmptyString :: split_lines boundary s'
      else match split_lines boundary s' with
           | [] => [String c EmptyString]
           | h :: t => String c h :: t
           end
  end.

(** [s.splitlines()] *)
Definition splitlines (s : string) : list string :=
  split_lines is_line_boundary s.

(** Lines with their terminating newline kept: what iterating over a text
    file and [readlines] yield. *)
Fixpoint readlines (s : string) : list string :=
  match s with
  | EmptyString => []
  | String c s' =>
      if is_newline c then String c EmptyString :: readlines s'
      else match readlines s' with
           | [] => [String c EmptyString]
           | h :: t => String c h :: t
           end
  end.

(** The text from byte [n] on: [f.seek(n)] followed by a read to the end. *)
Fixpoint drop (n : nat) (s : string) : string :=
  match n, s with
  | O, _ => s
  | S _, EmptyString => EmptyString
  | S n', String _ s' => drop n' s'
  end.

(** [sep.join(parts)] *)
Fixpoint join (sep : string) (parts : list string) : string :=
  match parts with
  | [] => EmptyString
  | [p] => p
  | p :: rest => p ++ sep ++ join sep rest
  end.

(** [f.writelines(parts)] writes the concatenation. *)
Definition concat (parts : list string) : string :=
  fold_right String.append EmptyString parts.

(** [line.split()] with no argument, first field only ([parts[0]]);
    [None] when the line is blank. *)
Fixpoint take_field (s : string) : string :=
  match s with
  | EmptyString => EmptyString
  | String c s' => if is_space c then EmptyString else String c (take_field s')
  end.

Definition first_field (s : string) : option string :=
  match lstrip s with
  | EmptyString => None
  | t => Some (take_field t)
  end.

(** The one-character text of a newline. *)
Definition nl : string := String newline EmptyString.

(** [str(n)] for a non-negative integer. *)
Definition of_nat (n : nat) : string :=
  NilEmpty.string_of_uint (Nat.to_uint n).

(** [str(x)] for a float with one decimal, given in tenths. *)
Definition of_tenths (t : N) : string :=
  of_nat (N.to_nat (t / 10)) ++ "." ++ of_nat (N.to_nat (t mod 10)).

End Text.

(* ================================================================== *)
(** ** Exceptions, outcomes and the daemon's monad *)
(* ================================================================== *)

Inductive ExnClass : Type :=
| PermissionError
| FileNotFoundError
| ValueError
| OSError
| RequestException
| RuntimeError.

(** An exception: its class and [str(e)]. *)
Record exn : Type := Exn { exn_class : ExnClass; exn_text : string }.

Inductive Result (A : Type) : Type :=
| Ok (a : A)
| Raise (e : exn).
Arguments Ok {A} a.
Arguments Raise {A} e.

Definition is_permission_error (e : exn) : bool :=
  match exn_class e with PermissionError => true | _ => false end.

Definition is_file_not_found (e : exn) : bool :=
  match exn_class e with FileNotFoundError => true | _ => false end.

Definition is_value_error (e : exn) : bool :=
  match exn_class e with ValueError => true | _ => false end.

(** The configuration as [json.load] returns it: a dict whose three known
    keys may each be missing. *)
Record Config : Type := {
  server_name : option string;
  webhook_url : option string;
  services : option string
}.

(** [CONFIG_FILE] as [load_config] finds it. *)
Inductive ConfigFile : Type :=
| ConfigAbsent                 (* os.path.exists(CONFIG_FILE) is False *)
| ConfigBroken (e : exn)       (* open or json.load raises e *)
| ConfigJson (c : Config).

(** The calls the daemon makes on its host, as they happen. *)
Inductive Event : Type :=
| CpuPercent                               (* psutil.cpu_percent(interval=1) *)
| VirtualMemory                            (* psutil.virtual_memory() *)
| DiskUsage                                (* psutil.disk_usage("/") *)
| SystemctlIsActive (service : string)     (* systemctl is-active service *)
| GrepAuthLog                              (* grep "Failed password" auth.log *)
| OpenAuthLog                              (* open(auth.log, "r") in clear_ssh_attempts *)
| WriteAuthLog (content : string)          (* open(auth.log, "w"); writelines *)
| AptList                                  (* apt list --upgradable *)
| SystemctlListFailed                      (* systemctl list-units --state=failed *)
| HttpPost (url server timestamp message : string)   (* requests.post *)
| Sleep (seconds : nat).                   (* time.sleep *)

(** The files the daemon reads and writes, its standard output, and the
    calls made so far (most recent first). *)
Record World : Type := {
  log_file : string;            (* content of LOG_FILE *)
  log_entries : nat;            (* calls of log_message so far *)
  stdout : list string;         (* printed texts, most recent first *)
  state_file : option Z;        (* the integer STATE_FILE holds; None when
                                   the file is missing, empty or not a number *)
  config_file : ConfigFile;
  auth_log : option string;     (* /var/log/auth.log; None when missing *)
  trace : list Event
}.

(** What the host answers during one phase of the daemon. *)
Record Env : Type := {
  strftime_now : nat -> string;        (* the timestamp of the k-th log entry *)
  log_append_denied : bool;            (* open(LOG_FILE, "a") raises PermissionError *)
  ensure_dirs_fault : option exn;      (* mkdir or touch raises *)
  cpu_percent : Result N;              (* in tenths of a percent: psutil rounds *)
  virtual_memory_percent : Result N;   (*   its percentages to one decimal      *)
  disk_usage_percent : Result N;
  systemctl_is_active : string -> Result string;   (* stdout, or the exception of subprocess.run *)
  grep_fault : option exn;             (* subprocess.run raises *)
  auth_read_fault : option exn;        (* auth.log cannot be opened for reading *)
  auth_write_fault : option exn;       (* auth.log cannot be opened for writing *)
  getsize_fault : option exn;          (* os.path.getsize(LOG_FILE) raises *)
  state_read_fault : option exn;       (* open(STATE_FILE, "r") raises *)
  log_read_fault : option exn;         (* open(LOG_FILE, "r") raises *)
  state_write_fault : option exn;      (* open(STATE_FILE, "w") raises *)
  apt_list_upgradable : Result string;
  systemctl_list_failed : Result string;
  utcnow_isoformat : string;           (* datetime.utcnow().isoformat() *)
  requests_post : option string        (* None: a 2xx answer; Some t: a
                                          RequestException with text t *)
}.

Module Monad.

Definition M (A : Type) : Type := World -> Result A * World.

Definition ret {A} (a : A) : M A := fun w => (Ok a, w).

Definition raise {A} (e : exn) : M A := fun w => (Raise e, w).

Definition bind {A B} (m : M A) (k : A -> M B) : M B :=
  fun w =>
    match m w with
    | (Ok a, w') => k a w'
    | (Raise e, w') => (Raise e, w')
    end.

(** [try: body except Exception as e: handler(e)] *)
Definition try_except {A} (body : M A) (handler : exn -> M A) : M A :=
  fun w =>
    match body w with
    | (Ok a, w') => (Ok a, w')
    | (Raise e, w') => handler e w'
    end.

(** Raise the fault the host injects, if any. *)
Definition check_fault (f : option exn) : M unit :=
  match f with
  | Some e => raise e
  | None => ret tt
  end.

Definition get : M World := fun w => (Ok w, w).

Definition emit (ev : Event) : M unit :=
  fun w =>
    (Ok tt, {| log_file := log_file w; log_entries := log_entries w;
               stdout := stdout w; state_file := state_file w;
               config_file := config_file w; auth_log := auth_log w;
               trace := ev :: trace w |}).

Definition print (text : string) : M unit :=
  fun w =>
    (Ok tt, {| log_file := log_file w; log_entries := log_entries w;
               stdout := text :: stdout w; state_file := state_file w;
               config_file := config_file w; auth_log := auth_log w;
               trace := trace w |}).

(** One more entry stamped; the text is appended when [append] holds. *)
Definition log_write (append : bool) (entry : string) : M unit :=
  fun w =>
    (Ok tt, {| log_file := if append then log_file w ++ entry else log_file w;
               log_entries := S (log_entries w);
               stdout := if append then stdout w else entry :: stdout w;
               state_file := state_file w;
               config_file := config_file w; auth_log := auth_log w;
               trace := trace w |}).

Definition write_state (position : Z) : M unit :=
  fun w =>
    (Ok tt, {| log_file := log_file w; log_entries := log_entries w;
               stdout := stdout w; state_file := Some position;
               config_file := config_file w; auth_log := auth_log w;
               trace := trace w |}).

Definition write_auth (content : string) : M unit :=
  fun w =>
    (Ok tt, {| log_file := log_file w; log_entries := log_entries w;
               stdout := stdout w; state_file := state_file w;
               config_file := config_file w; auth_log := Some content;
               trace := WriteAuthLog content :: trace w |}).

End Monad.
Import Monad.

Notation "x <- m ;; k" := (bind m (fun x => k))
  (at level 100, m at next level, right associativity).
Notation "m ;;; k" := (bind m (fun _ => k))
  (at level 100, right associativity).

(* ================================================================== *)
(** ** main.py *)
(* ================================================================== *)

Definition CHECK_INTERVAL : nat := 300.
Definition LOG_FILE : string := "/var/log/serverstriker.log".
Definition AUTH_LOG : string := "/var/log/auth.log".

(** [timedelta(days=1)] in microseconds, the resolution of [datetime]. *)
Definition ONE_DAY : Z := 86400000000%Z.

(** [l.append(x)] *)
Definition list_append {A} (l : list A) (x : A) : list A := (l ++ [x])%list.

(** *** Helpers *)

Definition ensure_dirs (env : Env) : M unit :=
  check_fault (ensure_dirs_fault env).

Definition log_message (env : Env) (message : string) : M unit :=
  w <- get ;;
  let timestamp := strftime_now env (log_entries w) in
  let log_entry := "[" ++ timestamp ++ "] " ++ message ++ Text.nl in
  (* except PermissionError: print(log_entry, end="") *)
  log_write (negb (log_append_denied env)) log_entry.

Definition load_config (env : Env) : M (option Config) :=
  w <- get ;;
  match config_file w with
  | ConfigAbsent => ret None
  | ConfigJson c => ret (Some c)
  | ConfigBroken e =>
      log_message env ("Error loading config: " ++ exn_text e) ;;;
      ret None
  end.

(** [if not config]: [None] and the empty dict are falsy. *)
Definition config_missing (config : option Config) : bool :=
  match config with
  | None => true
  | Some c =>
      match server_name c, webhook_url c, services c with
      | None, None, None => true
      | _, _, _ => false
      end
  end.

(** [config.get(key, default)] *)
Definition get_or (field : Config -> option string) (default : string)
    (config : option Config) : string :=
  match config with
  | Some c => match field c with Some v => v | None => default end
  | None => default
  end.

Definition read_last_position (env : Env) : M Z :=
  try_except
    (check_fault (state_read_fault env) ;;;
     w <- get ;;
     match state_file w with
     | Some position => ret position
     | None => raise (Exn ValueError "invalid literal for int()")
     end)
    (fun e =>
       if is_file_not_found e || is_value_error e then ret 0%Z else raise e).

Definition save_last_position (env : Env) (position : Z) : M unit :=
  ensure_dirs env ;;;
  check_fault (state_write_fault env) ;;;
  write_state position.

(** *** Webhook notifications *)

Definition send_webhook (env : Env) (message : string) : M unit :=
  config <- load_config env ;;
  if config_missing config then
    print "Please run 'ServerStriker -init' to initialize." ;;;
    log_message env "Config missing. Please run ServerStriker -init"
  else
    let server := get_or server_name "Unknown Server" config in
    let url := Text.strip (get_or webhook_url "" config) in
    if Text.is_empty url then
      print "Webhook not set. Run: ServerStriker -setwebhook" ;;;
      log_message env "Webhook URL not set. Run ServerStriker -setwebhook"
    else
      emit (HttpPost url server (utcnow_isoformat env ++ "Z") message) ;;;
      match requests_post env with
      | None => ret tt
      | Some text => log_message env ("Webhook error: " ++ text)
      end.

(** *** Checks *)

(** One external sample: the call is recorded and its answer returned or
    raised. *)
Definition sample {A} (ev : Event) (answer : Result A) : M A :=
  emit ev ;;;
  match answer with
  | Ok a => ret a
  | Raise e => raise e
  end.

Definition check_cpu_usage (env : Env) (show : bool) : M (list string) :=
  usage <- sample CpuPercent (cpu_percent env) ;;
  if (800 <? usage)%N || show
  then ret ["🔥 High CPU Usage: " ++ Text.of_tenths usage ++ "%"]
  else ret [].

Definition check_memory_usage (env : Env) (show : bool) : M (list string) :=
  usage <- sample VirtualMemory (virtual_memory_percent env) ;;
  if (800 <? usage)%N || show
  then ret ["🚨 High RAM Usage: " ++ Text.of_tenths usage ++ "%"]
  else ret [].

Definition check_disk_usage (env : Env) (show : bool) : M (list string) :=
  usage <- sample DiskUsage (disk_usage_percent env) ;;
  if (800 <? usage)%N || show
  then ret ["⚠️ Low Disk Space: " ++ Text.of_tenths usage ++ "% used"]
  else ret [].

Definition _split_services (services_str : string) : list string :=
  if Text.is_empty services_str then []
  else filter (fun s => negb (Text.is_empty s))
              (map Text.strip (Text.split "," services_str)).

(** The body of the [for service in services] loop of
    [check_running_services], with [messages] threaded through. *)
Definition check_service (env : Env) (show : bool) (messages : list string)
    (service : string) : M (list string) :=
  try_except
    (out <- sample (SystemctlIsActive service)
                   (systemctl_is_active env service) ;;
     if negb (String.eqb (Text.strip out) "active")
     then ret (list_append messages ("❌ " ++ service ++ " is down!"))
     else if show
     then ret (list_append messages ("✔️ " ++ service ++ " is up!"))
     else ret messages)
    (fun e =>
       log_message env
         ("Error checking service " ++ service ++ ": " ++ exn_text e) ;;;
       ret messages).

(** [for service in services: ...] *)
Fixpoint check_each_service (env : Env) (show : bool) (services : list string)
    (messages : list string) : M (list string) :=
  match services with
  | [] => ret messages
  | service :: rest =>
      messages' <- check_service env show messages service ;;
      check_each_service env show rest messages'
  end.

Definition check_running_services (env : Env) (show : bool) : M (list string) :=
  config <- load_config env ;;
  if config_missing config then ret []
  else
    let services_str := get_or services "" config in
    let services := _split_services services_str in
    check_each_service env show services [].

(** What [grep "Failed password" /var/log/auth.log] prints: the matching
    lines, each with its newline; nothing when the file is missing or
    unreadable. *)
Definition grep (pattern : string) (file : option string) : string :=
  match file with
  | Some text =>
      Text.concat
        (map (fun line => line ++ Text.nl)
             (filter (Text.contains pattern)
                     (Text.split_lines Text.is_newline text)))
  | None => EmptyString
  end.

Definition check_security_logs (env : Env) : M nat :=
  try_except
    (emit GrepAuthLog ;;;
     check_fault (grep_fault env) ;;;
     w <- get ;;
     let readable :=
       match auth_read_fault env with Some _ => None | None => auth_log w end in
     let logins_stdout := grep "Failed password" readable in
     ret (length (Text.splitlines logins_stdout)))
    (fun e =>
       log_message env ("Error reading auth.log: " ++ exn_text e) ;;;
       ret 0).

Definition clear_ssh_attempts (env : Env) : M unit :=
  try_except
    (emit OpenAuthLog ;;;
     check_fault (auth_read_fault env) ;;;
     w <- get ;;
     match auth_log w with
     | None => raise (Exn FileNotFoundError "No such file or directory")
     | Some text =>
         let lines := Text.readlines text in
         let filtered_lines :=
           filter (fun line => negb (Text.contains "sshd" line)) lines in
         check_fault (auth_write_fault env) ;;;
         write_auth (Text.concat filtered_lines) ;;;
         log_message env ("SSH attempts cleared from " ++ AUTH_LOG ++ ".")
     end)
    (fun e =>
       if is_permission_error e then
         log_message env "Permission denied. Need root to modify auth.log."
       else if is_file_not_found e then
         log_message env ("Log file not found: " ++ AUTH_LOG)
       else
         log_message env
           ("An error occurred clearing ssh attempts: " ++ exn_text e)).

(** The test on one line of the log in [check_system_errors]. *)
Definition is_error_line (line : string) : bool :=
  let low := Text.lower line in
  Text.contains "error" low || Text.contains "critical" low
  || Text.contains "failed" low.

(** The [for line in f] loop of [check_system_errors] on the lines read. *)
Definition scan_lines (lines : list string) : list string :=
  map (fun line => "🚨 System Error: " ++ Text.strip line)
      (filter is_error_line lines).

(** [messages] is a local list the loop fills before [save_last_position]
    may raise; the one [except Exception] handler logs and the function
    returns whatever [messages] holds by then. *)
Definition check_system_errors (env : Env) : M (list string) :=
  let except (messages : list string) (e : exn) : M (list string) :=
    log_message env ("Error checking system logs: " ++ exn_text e) ;;;
    ret messages in
  try_except
    (check_fault (getsize_fault env) ;;;
     w <- get ;;
     let file_size := Z.of_nat (String.length (log_file w)) in
     last_position <- read_last_position env ;;
     let last_position :=
       if (file_size <? last_position)%Z then 0%Z (* rotated *)
       else last_position in
     check_fault (log_read_fault env) ;;;
     (* f.seek(last_position) *)
     (if (last_position <? 0)%Z
      then raise (Exn ValueError "negative seek position")
      else ret tt) ;;;
     let messages :=
       scan_lines (Text.readlines
                     (Text.drop (Z.to_nat last_position) (log_file w))) in
     (* f.tell() once the file is read to its end *)
     let tell := Z.max last_position file_size in
     try_except
       (save_last_position env tell ;;; ret messages)
       (except messages))
    (except []).

Definition check_pending_updates (env : Env) : M (list string) :=
  try_except
    (result <- sample AptList (apt_list_upgradable env) ;;
     let updates :=
       map (fun line => hd EmptyString (Text.split "/" line))
           (filter (Text.contains "/") (Text.splitlines result)) in
     match updates with
     | [] => ret []
     | _ => ret ["📦 " ++ Text.of_nat (length updates)
                  ++ " packages can be upgraded."]
     end)
    (fun e =>
       log_message env ("Error checking updates: " ++ exn_text e) ;;;
       ret []).

(** The [for line in lines] loop of [check_services_status]. *)
Fixpoint failed_units (lines : list string) : list string :=
  match lines with
  | [] => []
  | line :: rest =>
      if Text.contains ".service" line && Text.contains "failed" line then
        match Text.first_field line with
        | Some unit_name => unit_name :: failed_units rest
        | None => failed_units rest
        end
      else failed_units rest
  end.

Definition check_services_status (env : Env) : M (list string) :=
  try_except
    (result <- sample SystemctlListFailed (systemctl_list_failed env) ;;
     let lines := Text.splitlines result in
     let failed := failed_units lines in
     match failed with
     | [] => ret []
     | _ => ret ["🔴 Failed Services: " ++ Text.join ", " failed]
     end)
    (fun e =>
       log_message env ("Error checking failed services: " ++ exn_text e) ;;;
       ret []).

(** *** Background loop *)

(** What the host answers during one iteration of the loop of [run_daemon]:
    during the frequent checks, at the two readings of [datetime.now()],
    during the daily checks and during the dispatch. *)
Record Cycle : Type := {
  frequent : Env;
  gate_now : Z;          (* datetime.now() in the test of the daily checks *)
  daily : Env;
  end_now : Z;           (* datetime.now() stored in last_daily_check *)
  dispatch : Env
}.

(** The local variables of one iteration once it is over. *)
Record Report : Type := {
  ran_daily : bool;               (* the daily checks ran *)
  new_last_daily_check : Z;       (* last_daily_check after the iteration *)
  all_messages : list string
}.

(** [datetime.now() - last_daily_check >= timedelta(days=1)] *)
Definition daily_due (now last : Z) : bool := (ONE_DAY <=? now - last)%Z.

(** [all_messages.extend(more)] *)
Definition extend (all_messages more : list string) : list string :=
  (all_messages ++ more)%list.

(** Lines 279-282: the frequent checks. *)
Definition frequent_checks (env : Env) (all_messages : list string)
    : M (list string) :=
  m <- check_cpu_usage env false ;;
  let all_messages := extend all_messages m in
  m <- check_memory_usage env false ;;
  let all_messages := extend all_messages m in
  m <- check_disk_usage env false ;;
  let all_messages := extend all_messages m in
  m <- check_running_services env false ;;
  ret (extend all_messages m).

(** Lines 291-294: the failed-login count and its remediation. *)
Definition security_check (env : Env) (all_messages : list string)
    : M (list string) :=
  failed_logins <- check_security_logs env ;;
  if 5 <? failed_logins then
    let all_messages :=
      list_append all_messages
        ("🚨 Security Alert: " ++ Text.of_nat failed_logins
         ++ " failed SSH logins detected!") in
    clear_ssh_attempts env ;;;
    ret all_messages
  else ret all_messages.

(** Lines 286-298: the daily checks. *)
Definition daily_checks (env : Env) (all_messages : list string)
    : M (list string) :=
  m <- check_cpu_usage env true ;;
  let all_messages := extend all_messages m in
  m <- check_memory_usage env true ;;
  let all_messages := extend all_messages m in
  m <- check_disk_usage env true ;;
  let all_messages := extend all_messages m in
  m <- check_running_services env true ;;
  let all_messages := extend all_messages m in
  all_messages <- security_check env all_messages ;;
  m <- check_system_errors env ;;
  let all_messages := extend all_messages m in
  m <- check_pending_updates env ;;
  let all_messages := extend all_messages m in
  m <- check_services_status env ;;
  ret (extend all_messages m).

(** Lines 302-305: dispatch and sleep. *)
Definition dispatch_and_sleep (env : Env) (all_messages : list string)
    : M unit :=
  match all_messages with
  | [] => ret tt
  | _ => send_webhook env (Text.join Text.nl all_messages)
  end ;;;
  emit (Sleep CHECK_INTERVAL).

(** One iteration of [while True], lines 276-305. *)
Definition iteration (c : Cycle) (last_daily_check : Z) : M Report :=
  let all_messages := [] in
  all_messages <- frequent_checks (frequent c) all_messages ;;
  if daily_due (gate_now c) last_daily_check then
    all_messages <- daily_checks (daily c) all_messages ;;
    let last_daily_check := end_now c in
    dispatch_and_sleep (dispatch c) all_messages ;;;
    ret {| ran_daily := true; new_last_daily_check := last_daily_check;
           all_messages := all_messages |}
  else
    dispatch_and_sleep (dispatch c) all_messages ;;;
    ret {| ran_daily := false; new_last_daily_check := last_daily_check;
           all_messages := all_messages |}.

(** The loop, for the iterations whose answers [cycles] lists; an exception
    that reaches it ends the process. *)
Fixpoint daemon_loop (cycles : list Cycle) (last_daily_check : Z)
    : M (list Report) :=
  match cycles with
  | [] => ret []
  | c :: rest =>
      r <- iteration c last_daily_check ;;
      rs <- daemon_loop rest (new_last_daily_check r) ;;
      ret (r :: rs)
  end.

Definition run_daemon (boot : Env) (boot_now : Z) (cycles : list Cycle)
    : M (list Report) :=
  ensure_dirs boot ;;;
  log_message boot "ServerStriker daemon started." ;;;
  let last_daily_check := (boot_now - ONE_DAY)%Z in
  daemon_loop cycles last_daily_check.

(** *** CLI commands *)

Definition save_config (env : Env) (config : Config) : M unit :=
  ensure_dirs env ;;;
  fun w =>
    (Ok tt, {| log_file := log_file w; log_entries := log_entries w;
               stdout := stdout w; state_file := state_file w;
               config_file := ConfigJson config; auth_log := auth_log w;
               trace := trace w |}).

(** [load_config() or {}] *)
Definition or_empty (config : option Config) : Config :=
  if config_missing config
  then {| server_name := None; webhook_url := None; services := None |}
  else match config with
       | Some c => c
       | None => {| server_name := None; webhook_url := None; services := None |}
       end.

(** [init_config], the three answers typed at its prompts given. *)
Definition init_config (env : Env) (name_input webhook_input services_input : string)
    : M unit :=
  ensure_dirs env ;;;
  loaded <- load_config env ;;
  let config := or_empty loaded in
  let config :=
    {| server_name := Some (Text.strip name_input);
       webhook_url := Some (Text.strip webhook_input);
       services := Some (Text.strip services_input) |} in
  save_config env config ;;;
  print "✅ ServerStriker initialized.".

(** A Python [set] of strings, kept as the ascending duplicate-free list
    [sorted] returns for it. *)
Fixpoint set_add (x : string) (s : list string) : list string :=
  match s with
  | [] => [x]
  | y :: rest =>
      match String.compare x y with
      | Lt => x :: s
      | Eq => s
      | Gt => y :: set_add x rest
      end
  end.

Definition set_of (l : list string) : list string :=
  fold_right set_add [] l.

(** [add_service], the answer typed at its prompt given. *)
Definition add_service (env : Env) (service_input : string) : M unit :=
  loaded <- load_config env ;;
  let config := or_empty loaded in
  let current := get_or services "" (Some config) in
  let new_service := Text.strip service_input in
  let services_set := set_of (_split_services current) in
  let services_set :=
    if Text.is_empty new_service then services_set
    else set_add new_service services_set in
  let config :=
    {| server_name := server_name config; webhook_url := webhook_url config;
       services := Some (Text.join "," services_set) |} in
  save_config env config ;;;
  print ("✅ Services updated: " ++ Text.join "," services_set).

(* ================================================================== *)
(** ** Observations on runs *)
(* ================================================================== *)

(** How many of the calls in a trace satisfy [p]. *)
Definition count (p : Event -> bool) (t : list Event) : nat :=
  length (filter p t).

Definition is_post (ev : Event) : bool :=
  match ev with HttpPost _ _ _ _ => true | _ => false end.

Definition is_open_auth (ev : Event) : bool :=
  match ev with OpenAuthLog => true | _ => false end.

Definition is_cpu (ev : Event) : bool :=
  match ev with CpuPercent => true | _ => false end.

Definition is_memory (ev : Event) : bool :=
  match ev with VirtualMemory => true | _ => false end.

Definition is_disk (ev : Event) : bool :=
  match ev with DiskUsage => true | _ => false end.

Definition is_active_query (service : string) (ev : Event) : bool :=
  match ev with SystemctlIsActive s => String.eqb s service | _ => false end.

(** The offset the tailer starts from: what [read_last_position] returns
    when the state file can be read. *)
Definition stored_offset (w : World) : Z :=
  match state_file w with Some position => position | None => 0%Z end.


(** None of the faults [check_system_errors] can meet is injected. *)
Definition tail_faultless (env : Env) : bool :=
  match getsize_fault env, state_read_fault env, log_read_fault env,
        ensure_dirs_fault env, state_write_fault env with
  | None, None, None, None, None => true
  | _, _, _, _, _ => false
  end.

(** A text made of whole lines: empty, or ending in a newline. *)
Fixpoint whole_lines (s : string) : bool :=
  match s with
  | EmptyString => true
  | String c EmptyString => Text.is_newline c
  | String _ s' => whole_lines s'
  end.

(** Appends to the agent's log interleaved with calls of the tailer. *)
Inductive LogOp : Type :=
| Logged (env : Env) (message : string)     (* log_message(message) *)
| Tailed (env : Env).                       (* check_system_errors() *)

Definition op_faultless (op : LogOp) : bool :=
  match op with
  | Logged _ _ => true
  | Tailed env => tail_faultless env
  end.

(** The sequences the tailer returns, in call order, and the final world. *)
Fixpoint run_log_ops (ops : list LogOp) (w : World)
    : list (list string) * World :=
  match ops with
  | [] => ([], w)
  | Logged env message :: rest => run_log_ops rest (snd (log_message env message w))
  | Tailed env :: rest =>
      let '(r, w1) := check_system_errors env w in
      let '(returned, w') := run_log_ops rest w1 in
      (match r with Ok messages => messages | Raise _ => [] end :: returned, w')
  end.




(** The finding of [check_cpu_usage] for a sample. *)
Definition cpu_finding (usage : N) : string :=
  "🔥 High CPU Usage: " ++ Text.of_tenths usage ++ "%".

Definition memory_finding (usage : N) : string :=
  "🚨 High RAM Usage: " ++ Text.of_tenths usage ++ "%".

Definition disk_finding (usage : N) : string :=
  "⚠️ Low Disk Space: " ++ Text.of_tenths usage ++ "% used".

Definition down_finding (service : string) : string :=
  "❌ " ++ service ++ " is down!".

Definition security_finding (failed_logins : nat) : string :=
  "🚨 Security Alert: " ++ Text.of_nat failed_logins
  ++ " failed SSH logins detected!".

(** What one pass of the loop of [check_running_services] adds for a
    service. *)
Definition service_finding (env : Env) (show : bool) (service : string)
    : list string :=
  match systemctl_is_active env service with
  | Ok out =>
      if negb (String.eqb (Text.strip out) "active") then [down_finding service]
      else if show then ["✔️ " ++ service ++ " is up!"]
      else []
  | Raise _ => []
  end.

(** The services [check_running_services] queries in a world. *)
Definition monitored_services (w : World) : list string :=
  match config_file w with
  | ConfigJson c =>
      if config_missing (Some c) then []
      else _split_services (get_or services "" (Some c))
  | _ => []
  end.

(** A webhook can be posted to: a configuration is loaded and its URL is
    not blank. *)
Definition webhook_configured (w : World) : bool :=
  match config_file w with
  | ConfigJson c =>
      negb (config_missing (Some c))
      && negb (Text.is_empty (Text.strip (get_or webhook_url "" (Some c))))
  | _ => false
  end.

(** What [check_security_logs] returns in a world. *)
Definition failed_logins (env : Env) (w : World) : nat :=
  match grep_fault env with
  | Some _ => 0
  | None =>
      length (Text.splitlines
                (grep "Failed password"
                      (match auth_read_fault env with
                       | Some _ => None
                       | None => auth_log w
                       end)))
  end.

(** The authentication log once [clear_ssh_attempts] has run: rewritten
    without its lines containing "sshd" when it can be read and written,
    untouched otherwise. *)
Definition remediated (env : Env) (w : World) : option string :=
  match auth_read_fault env, auth_log w, auth_write_fault env with
  | None, Some text, None =>
      Some (Text.concat
              (filter (fun line => negb (Text.contains "sshd" line))
                      (Text.readlines text)))
  | _, _, _ => auth_log w
  end.

(** The calls [clear_ssh_attempts] makes. *)
Definition remediation_calls (env : Env) (w : World) : list Event :=
  match auth_read_fault env, auth_log w, auth_write_fault env with
  | None, Some text, None =>
      match remediated env w with
      | Some content => [WriteAuthLog content; OpenAuthLog]
      | None => [OpenAuthLog]
      end
  | _, _, _ => [OpenAuthLog]
  end.

(** The findings of a resource check for a sample. *)
Definition usage_findings (finding : N -> string) (usage : N) (show : bool)
    : list string :=
  if (800 <? usage)%N || show then [finding usage] else [].

(** The security part of [all_messages] for a failed-login count. *)
Definition security_findings (failed : nat) : list string :=
  if 5 <? failed then [security_finding failed] else [].

Definition is_security_finding (s : string) : bool :=
  String.prefix "🚨 Security Alert: " s.

(** The four status checks both phases begin with, lines 279-282 with
    [show = False] and lines 286-289 with [show = True]. *)
Definition status_checks (env : Env) (show : bool) (all_messages : list string)
    : M (list string) :=
  m <- check_cpu_usage env show ;;
  let all_messages := extend all_messages m in
  m <- check_memory_usage env show ;;
  let all_messages := extend all_messages m in
  m <- check_disk_usage env show ;;
  let all_messages := extend all_messages m in
  m <- check_running_services env show ;;
  ret (extend all_messages m).

(** The findings of the four status checks, for the three samples. *)
Definition status_findings (env : Env) (show : bool) (cpu mem disk : N)
    (w : World) : list string :=
  (usage_findings cpu_finding cpu show
   ++ usage_findings memory_finding mem show
   ++ usage_findings disk_finding disk show
   ++ flat_map (service_finding env show) (monitored_services w))%list.

(** The calls of the four status checks, most recent first. *)
Definition status_calls (w : World) : list Event :=
  (rev (map SystemctlIsActive (monitored_services w))
   ++ [DiskUsage; VirtualMemory; CpuPercent])%list.

(** A metric sample of the host raises [e]. *)
Definition sample_raises (env : Env) (e : exn) : Prop :=
  cpu_percent env = Raise e \/
  virtual_memory_percent env = Raise e \/
  disk_usage_percent env = Raise e.

(** The three metric samples of the host all answer. *)
Definition samples_answer (env : Env) : bool :=
  match cpu_percent env, virtual_memory_percent env, disk_usage_percent env with
  | Ok _, Ok _, Ok _ => true
  | _, _, _ => false
  end.

Definition cycle_answers (c : Cycle) : bool :=
  samples_answer (frequent c) && samples_answer (daily c).

(** The messages posted to the webhook in a trace, most recent first. *)
Fixpoint posts (t : list Event) : list string :=
  match t with
  | [] => []
  | HttpPost _ _ _ message :: rest => message :: posts rest
  | _ :: rest => posts rest
  end.

(** [systemctl is-active] answers something else than "active". *)
Definition is_down (env : Env) (service : string) : Prop :=
  exists out,
    systemctl_is_active env service = Ok out /\
    String.eqb (Text.strip out) "active" = false.


(** [effect added w w']: from [w] to [w'] the calls [added] were made (most
    recent first), whole lines were appended to the log, and neither the
    configuration nor the authentication log changed. *)
Definition effect (added : list Event) (w w' : World) : Prop :=
  config_file w' = config_file w /\
  auth_log w' = auth_log w /\
  trace w' = (added ++ trace w)%list /\
  exists extra,
    whole_lines extra = true /\ log_file w' = log_file w ++ extra.

(** What [load_config] returns in a world. *)
Definition loaded (w : World) : option Config :=
  match config_file w with
  | ConfigJson c => Some c
  | _ => None
  end.

(* ================================================================== *)
(** ** Concrete hosts *)
(* ================================================================== *)

(** A healthy host: low usage, every service active, no fault, nothing to
    upgrade, no failed unit, a webhook that answers. *)
Definition healthy_host : Env := {|
  strftime_now := fun _ => "2024-01-01 00:00:00";
  log_append_denied := false;
  ensure_dirs_fault := None;
  cpu_percent := Ok 123%N;
  virtual_memory_percent := Ok 456%N;
  disk_usage_percent := Ok 500%N;
  systemctl_is_active := fun _ => Ok ("active" ++ Text.nl);
  grep_fault := None;
  auth_read_fault := None;
  auth_write_fault := None;
  getsize_fault := None;
  state_read_fault := None;
  log_read_fault := None;
  state_write_fault := None;
  apt_list_upgradable := Ok ("Listing..." ++ Text.nl);
  systemctl_list_failed := Ok ("0 loaded units listed." ++ Text.nl);
  utcnow_isoformat := "2024-01-01T00:00:00";
  requests_post := None
|}.

(** The healthy host with other metric samples. *)
Definition with_samples (cpu mem disk : Result N) (env : Env) : Env := {|
  strftime_now := strftime_now env;
  log_append_denied := log_append_denied env;
  ensure_dirs_fault := ensure_dirs_fault env;
  cpu_percent := cpu;
  virtual_memory_percent := mem;
  disk_usage_percent := disk;
  systemctl_is_active := systemctl_is_active env;
  grep_fault := grep_fault env;
  auth_read_fault := auth_read_fault env;
  auth_write_fault := auth_write_fault env;
  getsize_fault := getsize_fault env;
  state_read_fault := state_read_fault env;
  log_read_fault := log_read_fault env;
  state_write_fault := state_write_fault env;
  apt_list_upgradable := apt_list_upgradable env;
  systemctl_list_failed := systemctl_list_failed env;
  utcnow_isoformat := utcnow_isoformat env;
  requests_post := requests_post env
|}.

(** A host on which CPU is at 95% and every service is inactive. *)
Definition loaded_host : Env := {|
  strftime_now := fun _ => "2024-01-01 00:00:00";
  log_append_denied := false;
  ensure_dirs_fault := None;
  cpu_percent := Ok 950%N;
  virtual_memory_percent := Ok 456%N;
  disk_usage_percent := Ok 500%N;
  systemctl_is_active := fun _ => Ok ("inactive" ++ Text.nl);
  grep_fault := None;
  auth_read_fault := None;
  auth_write_fault := None;
  getsize_fault := None;
  state_read_fault := None;
  log_read_fault := None;
  state_write_fault := None;
  apt_list_upgradable := Ok ("Listing..." ++ Text.nl);
  systemctl_list_failed := Ok ("0 loaded units listed." ++ Text.nl);
  utcnow_isoformat := "2024-01-01T00:00:00";
  requests_post := Some "HTTPSConnectionPool: Max retries exceeded"
|}.

Definition example_config : Config := {|
  server_name := Some "web01";
  webhook_url := Some "https://hooks.example.org/T1";
  services := Some "nginx, mysql"
|}.

(** A freshly installed host: empty log, no stored offset. *)
Definition fresh_world (config : ConfigFile) (auth : option string) : World := {|
  log_file := EmptyString;
  log_entries := 0;
  stdout := [];
  state_file := None;
  config_file := config;
  auth_log := auth;
  trace := []
|}.

Definition example_cycle (env : Env) (gate : Z) : Cycle := {|
  frequent := env;
  gate_now := gate;
  daily := env;
  end_now := (gate + 2000000)%Z;
  dispatch := env
|}.

(** A host whose root file system cannot be queried: [psutil.disk_usage]
    raises, while CPU is at 95%. *)
Definition failing_disk_host : Env :=
  with_samples (Ok 950%N) (Ok 456%N)
    (Raise (Exn OSError "[Errno 5] Input/output error: '/'")) healthy_host.

(** A log that was rotated: one short entry, and an offset stored when the
    file was much longer. *)
Definition rotated_world : World := {|
  log_file := "[2024-01-02 00:00:00] Webhook error: timed out" ++ Text.nl;
  log_entries := 1;
  stdout := [];
  state_file := Some 5000%Z;
  config_file := ConfigJson example_config;
  auth_log := None;
  trace := []
|}.

(** An authentication log with six failed SSH logins, one accepted SSH
    login and one line of another program. *)
Definition brute_force_log : string :=
  "Jan  1 00:00:01 web01 sshd[101]: Failed password for root from 10.0.0.9" ++ Text.nl ++
  "Jan  1 00:00:02 web01 sshd[101]: Failed password for root from 10.0.0.9" ++ Text.nl ++
  "Jan  1 00:00:03 web01 sshd[102]: Failed password for admin from 10.0.0.9" ++ Text.nl ++
  "Jan  1 00:00:04 web01 CRON[55]: session opened for user root" ++ Text.nl ++
  "Jan  1 00:00:05 web01 sshd[103]: Failed password for admin from 10.0.0.9" ++ Text.nl ++
  "Jan  1 00:00:06 web01 sshd[104]: Failed password for git from 10.0.0.9" ++ Text.nl ++
  "Jan  1 00:00:07 web01 sshd[105]: Accepted publickey for deploy from 10.0.0.7" ++ Text.nl ++
  "Jan  1 00:00:08 web01 sshd[106]: Failed password for git from 10.0.0.9" ++ Text.nl.

(* ================================================================== *)
(** ** The rest of the command line, and more observations *)
(* ================================================================== *)

(** [s[:n]] *)
Fixpoint slice_to (n : nat) (s : string) : string :=
  match n, s with
  | S n', String c s' => String c (slice_to n' s')
  | _, _ => EmptyString
  end.

(** [set_webhook], the answer typed at its prompt given. *)
Definition set_webhook (env : Env) (webhook_input : string) : M unit :=
  loaded <- load_config env ;;
  let config := or_empty loaded in
  let webhook := Text.strip webhook_input in
  let config :=
    {| server_name := server_name config; webhook_url := Some webhook;
       services := services config |} in
  save_config env config ;;;
  print "✅ Webhook saved successfully.".

(** Lines 355-357 of [show_config]: the copy of the configuration that is
    printed, its webhook URL cut after 35 characters when it is not
    empty. *)
Definition safe_config (cfg : Config) : Config :=
  match webhook_url cfg with
  | Some url =>
      if Text.is_empty url then cfg
      else {| server_name := server_name cfg;
              webhook_url := Some (slice_to 35 url ++ "...");
              services := services cfg |}
  | None => cfg
  end.

(** [show_config]; [json_dumps] stands for [json.dumps(_, indent=4)]. *)
Definition show_config (json_dumps : Config -> string) (env : Env) : M unit :=
  cfg <- load_config env ;;
  if config_missing cfg then
    print "No config found. Run: ServerStriker -init"
  else
    match cfg with
    | Some c => print (json_dumps (safe_config c))
    | None => ret tt
    end.

(** A text without comma. *)
Fixpoint comma_free (s : string) : bool :=
  match s with
  | EmptyString => true
  | String c s' => negb (Ascii.eqb c ",") && comma_free s'
  end.

(** A text of whitespace only. *)
Fixpoint all_space (s : string) : bool :=
  match s with
  | EmptyString => true
  | String c s' => Text.is_space c && all_space s'
  end.

(** A service name as [_split_services] yields it: not empty, without
    surrounding whitespace, without comma. *)
Definition clean_name (s : string) : bool :=
  negb (Text.is_empty s) && String.eqb (Text.strip s) s && comma_free s.

(** A text without newline. *)
Fixpoint no_newline (s : string) : bool :=
  match s with
  | EmptyString => true
  | String c s' => negb (Text.is_newline c) && no_newline s'
  end.




(** A text without whitespace. *)
Fixpoint has_no_space (s : string) : bool :=
  match s with
  | EmptyString => true
  | String c s' => negb (Text.is_space c) && has_no_space s'
  end.




(** The world after [check_system_errors] met the exception [e]: one entry
    logged, nothing else touched. *)
Definition tail_failed (env : Env) (e : exn) (w : World) : World :=
  snd (log_message env ("Error checking system logs: " ++ exn_text e) w).

(** [check_system_errors] as a case analysis on what the host does. *)
Definition tail_outcome (env : Env) (w : World)
    : Result (list string) * World :=
  let size := Z.of_nat (String.length (log_file w)) in
  let seek (last : Z) :=
    let start := if (size <? last)%Z then 0%Z else last in
    let messages :=
      scan_lines (Text.readlines (Text.drop (Z.to_nat start) (log_file w))) in
    match log_read_fault env with
    | Some e => (Ok [], tail_failed env e w)
    | None =>
        if (start <? 0)%Z
        then (Ok [], tail_failed env (Exn ValueError "negative seek position") w)
        else
          match ensure_dirs_fault env, state_write_fault env with
          | Some e, _ => (Ok messages, tail_failed env e w)
          | None, Some e => (Ok messages, tail_failed env e w)
          | None, None => (Ok messages, snd (write_state (Z.max start size) w))
          end
    end in
  match getsize_fault env with
  | Some e => (Ok [], tail_failed env e w)
  | None =>
      match state_read_fault env with
      | Some e =>
          if is_file_not_found e || is_value_error e then seek 0%Z
          else (Ok [], tail_failed env e w)
      | None => seek (stored_offset w)
      end
  end.


(** The entry [log_message] writes for a message in a world. *)
Definition log_entry_of (env : Env) (message : string) (w : World) : string :=
  "[" ++ strftime_now env (log_entries w) ++ "] " ++ message ++ Text.nl.

(** The size of the log file, as [os.path.getsize] returns it. *)
Definition log_size (w : World) : Z := Z.of_nat (String.length (log_file w)).

(** A host on which the state file cannot be written. *)
Definition readonly_state_host : Env := {|
  strftime_now := fun _ => "2024-01-01 00:05:00";
  log_append_denied := false;
  ensure_dirs_fault := None;
  cpu_percent := Ok 123%N;
  virtual_memory_percent := Ok 456%N;
  disk_usage_percent := Ok 500%N;
  systemctl_is_active := fun _ => Ok ("active" ++ Text.nl);
  grep_fault := None;
  auth_read_fault := None;
  auth_write_fault := None;
  getsize_fault := None;
  state_read_fault := None;
  log_read_fault := None;
  state_write_fault :=
    Some (Exn PermissionError "[Errno 13] Permission denied");
  apt_list_upgradable := Ok ("Listing..." ++ Text.nl);
  systemctl_list_failed := Ok ("0 loaded units listed." ++ Text.nl);
  utcnow_isoformat := "2024-01-01T00:05:00";
  requests_post := None
|}.

(** A world whose log holds one alarming line not read yet. *)
Definition pending_world : World := {|
  log_file := "[2024-01-01 00:00:00] Error checking updates: apt missing"
              ++ Text.nl;
  log_entries := 1;
  stdout := [];
  state_file := Some 0%Z;
  config_file := ConfigJson example_config;
  auth_log := None;
  trace := []
|}.

(** A world whose state file holds a negative number. *)
Definition corrupt_world : World := {|
  log_file := "[2024-01-01 00:00:00] Error checking updates: apt missing"
              ++ Text.nl;
  log_entries := 1;
  stdout := [];
  state_file := Some (-5)%Z;
  config_file := ConfigJson example_config;
  auth_log := None;
  trace := []
|}.

(* ================================================================== *)
(** ** Lemmas on text *)
(* ================================================================== *)

Section TextLemmas.

Import Text.

Lemma append_empty_r (s : string) : s ++ EmptyString = s.
Proof. induction s as [|c s IH]; simpl; [reflexivity | now rewrite IH]. Qed.

Lemma append_assoc (a b c : string) : (a ++ b) ++ c = a ++ (b ++ c).
Proof. induction a as [|x a IH]; simpl; [reflexivity | now rewrite IH]. Qed.

Lemma length_append (a b : string) :
  String.length (a ++ b) = String.length a + String.length b.
Proof. induction a as [|x a IH]; simpl; [reflexivity | now rewrite IH]. Qed.



Lemma drop_nil (n : nat) : drop n EmptyString = EmptyString.
Proof. destruct n; reflexivity. Qed.

Lemma drop_app (n : nat) (a b : string) :
  n <= String.length a -> drop n (a ++ b) = drop n a ++ b.
Proof.
  revert a; induction n as [|n IH]; intros a Hn; [reflexivity|].
  destruct a as [|c a]; simpl in *; [lia|].
  apply IH. lia.
Qed.

Lemma drop_all (a : string) : drop (String.length a) a = EmptyString.
Proof. induction a as [|c a IH]; simpl; [reflexivity | exact IH]. Qed.

Lemma drop_length_app (a b : string) : drop (String.length a) (a ++ b) = b.
Proof. rewrite drop_app by lia. now rewrite drop_all. Qed.


Lemma whole_lines_app (a b : string) :
  whole_lines a = true -> whole_lines b = true -> whole_lines (a ++ b) = true.
Proof.
  intros Ha Hb. induction a as [|c a IH]; [exact Hb|].
  destruct a as [|c' a'].
  - simpl. destruct b; [exact Ha | exact Hb].
  - change (whole_lines (String c' a' ++ b) = true). apply IH. exact Ha.
Qed.

Lemma whole_lines_entry (s : string) : whole_lines (s ++ nl) = true.
Proof.
  induction s as [|c s IH]; [reflexivity|].
  simpl. destruct (s ++ nl) eqn:E; [|exact IH].
  destruct s; discriminate.
Qed.


End TextLemmas.

(* ================================================================== *)
(** ** What each function does to the world *)
(* ================================================================== *)

Lemma effect_refl (w : World) : effect [] w w.
Proof.
  repeat split. exists EmptyString. split; [reflexivity|].
  now rewrite append_empty_r.
Qed.

Lemma effect_trans (a b : list Event) (w w1 w2 : World) :
  effect a w w1 -> effect b w1 w2 -> effect (b ++ a) w w2.
Proof.
  intros (C1 & A1 & T1 & x1 & W1 & L1) (C2 & A2 & T2 & x2 & W2 & L2).
  repeat split.
  - congruence.
  - congruence.
  - rewrite T2, T1. now rewrite app_assoc.
  - exists (x1 ++ x2). split.
    + now apply whole_lines_app.
    + rewrite L2, L1. apply append_assoc.
Qed.

Lemma effect_emit (ev : Event) (w : World) : effect [ev] w (snd (emit ev w)).
Proof.
  repeat split. exists EmptyString. split; [reflexivity|].
  simpl. now rewrite append_empty_r.
Qed.

Ltac monad_unfold :=
  unfold check_fault, sample in *;
  unfold bind, ret, raise, try_except, get in *.

Lemma whole_lines_suffix (a b : string) :
  Text.is_empty b = false -> whole_lines (a ++ b) = whole_lines b.
Proof.
  intros Hb. induction a as [|c a IH]; [reflexivity|].
  simpl. destruct (a ++ b) eqn:E; [|exact IH].
  destruct a; [|discriminate]. simpl in E. subst b. discriminate.
Qed.

Lemma whole_lines_log_entry (timestamp message : string) :
  whole_lines ("[" ++ timestamp ++ "] " ++ message ++ Text.nl) = true.
Proof.
  rewrite whole_lines_suffix.
  - rewrite whole_lines_suffix by reflexivity.
    change ("] " ++ message ++ Text.nl) with (("] " ++ message) ++ Text.nl).
    apply whole_lines_entry.
  - destruct timestamp; reflexivity.
Qed.

Lemma log_message_effect (env : Env) (message : string) (w : World) :
  exists w',
    log_message env message w = (Ok tt, w') /\
    effect [] w w' /\ state_file w' = state_file w.
Proof.
  unfold log_message. monad_unfold. unfold log_write.
  eexists. split; [reflexivity|].
  split; [|reflexivity].
  repeat split. cbn [log_file].
  destruct (log_append_denied env); cbn [negb].
  - exists EmptyString. split; [reflexivity | now rewrite append_empty_r].
  - eexists. split; [|reflexivity]. apply whole_lines_log_entry.
Qed.

Lemma load_config_effect (env : Env) (w : World) :
  exists w',
    load_config env w = (Ok (loaded w), w') /\
    effect [] w w' /\ state_file w' = state_file w.
Proof.
  unfold load_config, loaded. monad_unfold.
  destruct (config_file w) as [|e|c] eqn:E.
  - exists w. split; [reflexivity|]. split; [apply effect_refl | reflexivity].
  - destruct (log_message_effect env ("Error loading config: " ++ exn_text e) w)
      as (w' & R & Ef & St).
    rewrite R. exists w'. split; [reflexivity|]. split; assumption.
  - exists w. split; [reflexivity|]. split; [apply effect_refl | reflexivity].
Qed.

Lemma check_cpu_usage_run (env : Env) (show : bool) (w : World) :
  check_cpu_usage env show w =
  (match cpu_percent env with
   | Ok usage => Ok (usage_findings cpu_finding usage show)
   | Raise e => Raise e
   end, snd (emit CpuPercent w)).
Proof.
  unfold check_cpu_usage, sample, usage_findings, cpu_finding.
  monad_unfold. unfold emit. cbn [snd].
  destruct (cpu_percent env) as [u|e]; cbv beta iota; [|reflexivity].
  destruct ((800 <? u)%N || show); reflexivity.
Qed.

Lemma check_memory_usage_run (env : Env) (show : bool) (w : World) :
  check_memory_usage env show w =
  (match virtual_memory_percent env with
   | Ok usage => Ok (usage_findings memory_finding usage show)
   | Raise e => Raise e
   end, snd (emit VirtualMemory w)).
Proof.
  unfold check_memory_usage, sample, usage_findings, memory_finding.
  monad_unfold. unfold emit. cbn [snd].
  destruct (virtual_memory_percent env) as [u|e]; cbv beta iota; [|reflexivity].
  destruct ((800 <? u)%N || show); reflexivity.
Qed.

Lemma check_disk_usage_run (env : Env) (show : bool) (w : World) :
  check_disk_usage env show w =
  (match disk_usage_percent env with
   | Ok usage => Ok (usage_findings disk_finding usage show)
   | Raise e => Raise e
   end, snd (emit DiskUsage w)).
Proof.
  unfold check_disk_usage, sample, usage_findings, disk_finding.
  monad_unfold. unfold emit. cbn [snd].
  destruct (disk_usage_percent env) as [u|e]; cbv beta iota; [|reflexivity].
  destruct ((800 <? u)%N || show); reflexivity.
Qed.

Lemma check_service_run (env : Env) (show : bool) (messages : list string)
    (service : string) (w : World) :
  exists w',
    check_service env show messages service w =
      (Ok (messages ++ service_finding env show service)%list, w') /\
    effect [SystemctlIsActive service] w w' /\
    state_file w' = state_file w.
Proof.
  pose proof (effect_emit (SystemctlIsActive service) w) as E1.
  unfold check_service, service_finding, sample, down_finding, list_append.
  monad_unfold. unfold emit in *. cbn [snd] in E1.
  destruct (systemctl_is_active env service) as [out|e]; cbv beta iota.
  - destruct (negb (Text.strip out =? "active")%string); [|destruct show];
      cbv beta iota; rewrite ?app_nil_r; eexists;
      (split; [reflexivity|]); (split; [exact E1 | reflexivity]).
  - match goal with
    | |- context [log_message env ?m ?w1] =>
        destruct (log_message_effect env m w1) as (w2 & R2 & E2 & S2)
    end.
    rewrite R2. exists w2. rewrite app_nil_r. split; [reflexivity|].
    split; [exact (effect_trans E1 E2) | exact S2].
Qed.

Lemma check_each_service_run (env : Env) (show : bool) (services : list string) :
  forall (messages : list string) (w : World),
  exists w',
    check_each_service env show services messages w =
      (Ok (messages ++ flat_map (service_finding env show) services)%list, w') /\
    effect (rev (map SystemctlIsActive services)) w w' /\
    state_file w' = state_file w.
Proof.
  induction services as [|service rest IH]; intros messages w.
  - exists w. simpl. rewrite app_nil_r.
    split; [reflexivity|]. split; [apply effect_refl | reflexivity].
  - cbn [check_each_service]. unfold bind.
    destruct (check_service_run env show messages service w)
      as (w1 & R1 & E1 & S1).
    rewrite R1.
    destruct (IH (messages ++ service_finding env show service)%list w1)
      as (w' & R & Ef & St).
    rewrite R. exists w'. split.
    + cbn [flat_map]. now rewrite app_assoc.
    + split; [|congruence].
      cbn [map rev]. exact (effect_trans E1 Ef).
Qed.

Ltac run_log w2 R E S :=
  match goal with
  | |- context [log_message ?env ?m ?w1] =>
      destruct (log_message_effect env m w1) as (w2 & R & E & S);
      rewrite R
  end.

Lemma check_running_services_run (env : Env) (show : bool) (w : World) :
  exists w',
    check_running_services env show w =
      (Ok (flat_map (service_finding env show) (monitored_services w)), w') /\
    effect (rev (map SystemctlIsActive (monitored_services w))) w w' /\
    state_file w' = state_file w.
Proof.
  unfold check_running_services, bind.
  destruct (load_config_effect env w) as (w1 & R1 & E1 & S1).
  rewrite R1. unfold monitored_services, loaded.
  destruct (config_file w) as [|e|c];
    try (exists w1; split; [reflexivity|]; split; assumption).
  destruct (config_missing (Some c)).
  - exists w1. split; [reflexivity|]. split; assumption.
  - destruct (check_each_service_run env show
                (_split_services (get_or services "" (Some c))) [] w1)
      as (w' & R & Ef & St).
    rewrite R. exists w'. split; [reflexivity|].
    split; [|congruence].
    pose proof (effect_trans E1 Ef) as H. now rewrite app_nil_r in H.
Qed.

Lemma check_security_logs_run (env : Env) (w : World) :
  exists w',
    check_security_logs env w = (Ok (failed_logins env w), w') /\
    effect [GrepAuthLog] w w' /\
    state_file w' = state_file w.
Proof.
  pose proof (effect_emit GrepAuthLog w) as E1.
  unfold check_security_logs, failed_logins. monad_unfold.
  unfold emit in *. cbn [snd] in E1.
  destruct (grep_fault env) as [e|]; cbv beta iota.
  - run_log w2 R2 E2 S2. exists w2. split; [reflexivity|].
    split; [exact (effect_trans E1 E2) | exact S2].
  - eexists. split; [reflexivity|]. split; [exact E1 | reflexivity].
Qed.

Lemma clear_ssh_attempts_run (env : Env) (w : World) :
  exists w',
    clear_ssh_attempts env w = (Ok tt, w') /\
    auth_log w' = remediated env w /\
    trace w' = (remediation_calls env w ++ trace w)%list /\
    config_file w' = config_file w /\
    state_file w' = state_file w /\
    exists extra,
      whole_lines extra = true /\ log_file w' = log_file w ++ extra.
Proof.
  unfold clear_ssh_attempts, remediated, remediation_calls, remediated.
  monad_unfold. unfold emit, write_auth.
  destruct (auth_read_fault env) as [e|]; cbv beta iota.
  - destruct (is_permission_error e); [|destruct (is_file_not_found e)];
      run_log w2 R2 E2 S2; exists w2; (split; [reflexivity|]);
      destruct E2 as (C2 & A2 & T2 & X2); repeat split; assumption.
  - cbn [auth_log].
    destruct (auth_log w) as [text|] eqn:EA; cbv beta iota.
    + destruct (auth_write_fault env) as [e|]; cbv beta iota.
      * destruct (is_permission_error e); [|destruct (is_file_not_found e)];
          run_log w2 R2 E2 S2; exists w2; (split; [reflexivity|]);
          destruct E2 as (C2 & A2 & T2 & X2);
          cbn [auth_log config_file trace log_file] in *;
          repeat split; congruence || assumption.
      * run_log w2 R2 E2 S2. exists w2. split; [reflexivity|].
        destruct E2 as (C2 & A2 & T2 & X2).
        cbn [auth_log config_file trace log_file] in *.
        repeat split; assumption.
    + cbn [is_permission_error is_file_not_found exn_class].
      run_log w2 R2 E2 S2. exists w2. split; [reflexivity|].
      destruct E2 as (C2 & A2 & T2 & X2).
      cbn [auth_log config_file trace log_file] in *.
      repeat split; congruence || assumption.
Qed.

Lemma remediated_same_auth (env : Env) (w w1 : World) :
  auth_log w1 = auth_log w ->
  remediated env w1 = remediated env w /\
  remediation_calls env w1 = remediation_calls env w.
Proof.
  intros H. unfold remediation_calls, remediated. now rewrite H.
Qed.

Lemma security_check_run (env : Env) (all_messages : list string) (w : World) :
  exists w',
    security_check env all_messages w =
      (Ok (all_messages ++ security_findings (failed_logins env w))%list, w') /\
    auth_log w' =
      (if 5 <? failed_logins env w then remediated env w else auth_log w) /\
    trace w' =
      ((if 5 <? failed_logins env w then remediation_calls env w else [])
       ++ GrepAuthLog :: trace w)%list /\
    config_file w' = config_file w /\
    state_file w' = state_file w /\
    exists extra,
      whole_lines extra = true /\ log_file w' = log_file w ++ extra.
Proof.
  unfold security_check, security_findings, bind.
  destruct (check_security_logs_run env w) as (w1 & R1 & E1 & S1).
  rewrite R1.
  destruct E1 as (C1 & A1 & T1 & x1 & W1 & L1).
  destruct (5 <? failed_logins env w).
  - destruct (clear_ssh_attempts_run env w1)
      as (w2 & R2 & A2 & T2 & C2 & S2 & x2 & W2 & L2).
    rewrite R2. exists w2.
    destruct (remediated_same_auth env _ _ A1) as [Hr Hc].
    split; [reflexivity|].
    split; [congruence|].
    split; [rewrite T2, T1, Hc; reflexivity|].
    split; [congruence|].
    split; [congruence|].
    exists (x1 ++ x2). split; [now apply whole_lines_app|].
    rewrite L2, L1. apply append_assoc.
  - exists w1. unfold ret. rewrite app_nil_r.
    split; [reflexivity|].
    split; [assumption|].
    split; [exact T1|].
    split; [assumption|].
    split; [assumption|].
    exists x1. split; assumption.
Qed.

Lemma read_last_position_run (env : Env) (w : World) :
  read_last_position env w =
  (match state_read_fault env with
   | Some e =>
       if is_file_not_found e || is_value_error e then Ok 0%Z else Raise e
   | None => Ok (stored_offset w)
   end, w).
Proof.
  unfold read_last_position, stored_offset. monad_unfold.
  destruct (state_read_fault env) as [e|]; cbv beta iota.
  - destruct (is_file_not_found e || is_value_error e); reflexivity.
  - destruct (state_file w); reflexivity.
Qed.

Lemma save_last_position_run (env : Env) (position : Z) (w : World) :
  save_last_position env position w =
  match ensure_dirs_fault env, state_write_fault env with
  | Some e, _ => (Raise e, w)
  | None, Some e => (Raise e, w)
  | None, None => write_state position w
  end.
Proof.
  unfold save_last_position, ensure_dirs. monad_unfold.
  destruct (ensure_dirs_fault env); [reflexivity|].
  destruct (state_write_fault env); reflexivity.
Qed.

Lemma effect_write_state (position : Z) (w : World) :
  effect [] w (snd (write_state position w)).
Proof.
  repeat split. exists EmptyString.
  split; [reflexivity | simpl; now rewrite append_empty_r].
Qed.

Lemma check_system_errors_total (env : Env) (w : World) :
  exists lines w',
    check_system_errors env w = (Ok (scan_lines lines), w') /\
    effect [] w w'.
Proof.
  unfold check_system_errors. unfold try_except at 1.
  unfold check_fault at 1. unfold bind at 1.
  destruct (getsize_fault env) as [e|].
  { unfold raise at 1. cbv beta iota. unfold bind at 1.
    run_log w2 R2 E2 S2. exists [], w2. split; [reflexivity | exact E2]. }
  unfold ret at 1. cbv beta iota.
  unfold bind at 1. unfold get at 1. cbv beta iota.
  unfold bind at 1. rewrite read_last_position_run.
  set (size := Z.of_nat (String.length (log_file w))).
  assert (Hfail : forall e : exn,
    exists lines w',
      (let (r, w'0) :=
         log_message env ("Error checking system logs: " ++ exn_text e) w in
       match r with
       | Ok _ => ret [] w'0
       | Raise e0 => (Raise e0, w'0)
       end) = (Ok (scan_lines lines), w') /\ effect [] w w').
  { intros e. run_log w2 R2 E2 S2. exists [], w2.
    split; [reflexivity | exact E2]. }
  assert (Hrest : forall last : Z,
    exists lines w',
      (let (r, w'0) :=
         (check_fault (log_read_fault env);;;
          (if ((if (size <? last)%Z then 0%Z else last) <? 0)%Z
           then raise (Exn ValueError "negative seek position")
           else ret tt);;;
          try_except
            (save_last_position env
               (Z.max (if (size <? last)%Z then 0%Z else last) size);;;
             ret
               (scan_lines
                  (Text.readlines
                     (Text.drop
                        (Z.to_nat (if (size <? last)%Z then 0%Z else last))
                        (log_file w)))))
            (fun e : exn =>
             log_message env ("Error checking system logs: " ++ exn_text e);;;
             ret
               (scan_lines
                  (Text.readlines
                     (Text.drop
                        (Z.to_nat (if (size <? last)%Z then 0%Z else last))
                        (log_file w)))))) w in
       match r with
       | Ok a => (Ok a, w'0)
       | Raise e =>
           (log_message env ("Error checking system logs: " ++ exn_text e);;;
            ret []) w'0
       end) = (Ok (scan_lines lines), w') /\ effect [] w w').
  { intros last. unfold check_fault. unfold bind at 1.
    destruct (log_read_fault env) as [e|].
    { unfold raise at 1. cbv beta iota. unfold bind at 1. apply Hfail. }
    unfold ret at 1. cbv beta iota. unfold bind at 1.
    destruct ((if (size <? last)%Z then 0%Z else last) <? 0)%Z.
    { unfold raise at 1. cbv beta iota. unfold bind at 1. apply Hfail. }
    unfold ret at 1. cbv beta iota.
    unfold try_except, bind at 1. rewrite save_last_position_run.
    destruct (ensure_dirs_fault env) as [e|].
    { cbv beta iota. unfold bind. run_log w2 R2 E2 S2. unfold ret.
      eexists _, w2. split; [reflexivity | exact E2]. }
    destruct (state_write_fault env) as [e|].
    { cbv beta iota. unfold bind. run_log w2 R2 E2 S2. unfold ret.
      eexists _, w2. split; [reflexivity | exact E2]. }
    unfold write_state, ret. cbv beta iota.
    eexists _, _. split; [reflexivity|].
    apply (effect_write_state _ w). }
  destruct (state_read_fault env) as [e|].
  - destruct (is_file_not_found e || is_value_error e).
    + cbv beta iota. apply Hrest.
    + cbv beta iota. unfold bind at 1. apply Hfail.
  - cbv beta iota. apply Hrest.
Qed.

Lemma tail_faultless_inv (env : Env) :
  tail_faultless env = true ->
  getsize_fault env = None /\ state_read_fault env = None /\
  log_read_fault env = None /\ ensure_dirs_fault env = None /\
  state_write_fault env = None.
Proof.
  unfold tail_faultless.
  destruct (getsize_fault env), (state_read_fault env), (log_read_fault env),
    (ensure_dirs_fault env), (state_write_fault env);
    intros H; try discriminate; repeat split.
Qed.

(** Without faults and with a stored offset that is not negative, the tailer
    scans the file from the offset (from 0 when the file is shorter than
    the offset) and stores the size of the file. *)
Lemma check_system_errors_faultless (env : Env) (w : World) :
  tail_faultless env = true ->
  (0 <= stored_offset w)%Z ->
  let size := Z.of_nat (String.length (log_file w)) in
  let start := if (size <? stored_offset w)%Z then 0%Z else stored_offset w in
  check_system_errors env w =
  (Ok (scan_lines (Text.readlines (Text.drop (Z.to_nat start) (log_file w)))),
   snd (write_state size w)).
Proof.
  intros Hf Hpos size start.
  destruct (tail_faultless_inv env Hf) as (F1 & F2 & F3 & F4 & F5).
  unfold check_system_errors. unfold try_except at 1.
  rewrite F1. unfold check_fault at 1. unfold bind at 1, ret at 1.
  cbv beta iota. unfold bind at 1, get at 1. cbv beta iota.
  unfold bind at 1. rewrite read_last_position_run, F2.
  cbv beta iota. fold size. fold start.
  rewrite F3. unfold check_fault, bind at 1, ret at 1. cbv beta iota.
  assert (Hs : (0 <= start)%Z) by (unfold start; destruct (size <? _)%Z; lia).
  assert (Hle : (start <= size)%Z).
  { unfold start. destruct (size <? stored_offset w)%Z eqn:E.
    - unfold size. lia.
    - apply Z.ltb_ge in E. exact E. }
  unfold bind at 1.
  destruct (start <? 0)%Z eqn:E0; [apply Z.ltb_lt in E0; lia|].
  unfold ret at 1. cbv beta iota.
  unfold try_except, bind at 1. rewrite save_last_position_run, F4, F5.
  unfold write_state, ret. cbv beta iota.
  rewrite Z.max_r by exact Hle. reflexivity.
Qed.

Lemma check_pending_updates_run (env : Env) (w : World) :
  exists messages w',
    check_pending_updates env w = (Ok messages, w') /\
    effect [AptList] w w' /\ state_file w' = state_file w /\
    Forall (fun m => is_security_finding m = false) messages.
Proof.
  pose proof (effect_emit AptList w) as E1.
  unfold check_pending_updates. monad_unfold. unfold emit in *.
  cbn [snd] in E1.
  destruct (apt_list_upgradable env) as [result|e]; cbv beta iota.
  - destruct (map _ (filter _ (Text.splitlines result))) as [|u us];
      cbv beta iota; eexists _, _; (split; [reflexivity|]);
      (split; [exact E1|]); (split; [reflexivity|]).
    + constructor.
    + constructor; [reflexivity | constructor].
  - run_log w2 R2 E2 S2. exists [], w2. split; [reflexivity|].
    split; [exact (effect_trans E1 E2)|]. split; [exact S2 | constructor].
Qed.

Lemma check_services_status_run (env : Env) (w : World) :
  exists messages w',
    check_services_status env w = (Ok messages, w') /\
    effect [SystemctlListFailed] w w' /\ state_file w' = state_file w /\
    Forall (fun m => is_security_finding m = false) messages.
Proof.
  pose proof (effect_emit SystemctlListFailed w) as E1.
  unfold check_services_status. monad_unfold. unfold emit in *.
  cbn [snd] in E1.
  destruct (systemctl_list_failed env) as [result|e]; cbv beta iota.
  - destruct (failed_units (Text.splitlines result)) as [|u us];
      cbv beta iota; eexists _, _; (split; [reflexivity|]);
      (split; [exact E1|]); (split; [reflexivity|]).
    + constructor.
    + constructor; [reflexivity | constructor].
  - run_log w2 R2 E2 S2. exists [], w2. split; [reflexivity|].
    split; [exact (effect_trans E1 E2)|]. split; [exact S2 | constructor].
Qed.

Lemma effect_print (text : string) (w : World) :
  effect [] w (snd (print text w)).
Proof.
  repeat split. exists EmptyString.
  split; [reflexivity | simpl; now rewrite append_empty_r].
Qed.

(** [send_webhook] posts exactly when a webhook is configured, once, and
    never raises, whatever the webhook answers. *)
Lemma send_webhook_run (env : Env) (message : string) (w : World) :
  exists w',
    send_webhook env message w = (Ok tt, w') /\
    state_file w' = state_file w /\
    exists posted,
      effect posted w w' /\
      if webhook_configured w
      then exists url server,
             posted = [HttpPost url server (utcnow_isoformat env ++ "Z") message]
      else posted = [].
Proof.
  unfold send_webhook. unfold bind at 1.
  destruct (load_config_effect env w) as (w1 & R1 & E1 & S1).
  rewrite R1. unfold webhook_configured, loaded.
  assert (Hquiet : forall text note,
    exists w',
      (print text ;;; log_message env note) w1 = (Ok tt, w') /\
      state_file w' = state_file w /\ effect [] w w').
  { intros text note. unfold bind.
    pose proof (effect_print text w1) as Ep.
    unfold print in *. cbn [snd] in Ep. cbv beta iota.
    run_log w2 R2 E2 S2. exists w2. split; [reflexivity|].
    split; [cbn [state_file] in S2; congruence|].
    exact (effect_trans E1 (effect_trans Ep E2)). }
  destruct (config_file w) as [|e|c].
  - destruct (Hquiet "Please run 'ServerStriker -init' to initialize."
                     "Config missing. Please run ServerStriker -init")
      as (w' & R & St & Ef).
    cbn [config_missing]. rewrite R. exists w'. split; [reflexivity|].
    split; [exact St|]. exists []. split; [exact Ef | reflexivity].
  - destruct (Hquiet "Please run 'ServerStriker -init' to initialize."
                     "Config missing. Please run ServerStriker -init")
      as (w' & R & St & Ef).
    cbn [config_missing]. rewrite R. exists w'. split; [reflexivity|].
    split; [exact St|]. exists []. split; [exact Ef | reflexivity].
  - destruct (config_missing (Some c)); cbn [negb andb].
    + destruct (Hquiet "Please run 'ServerStriker -init' to initialize."
                       "Config missing. Please run ServerStriker -init")
        as (w' & R & St & Ef).
      rewrite R. exists w'. split; [reflexivity|].
      split; [exact St|]. exists []. split; [exact Ef | reflexivity].
    + destruct (Text.is_empty (Text.strip (get_or webhook_url "" (Some c))));
        cbn [negb].
      * destruct (Hquiet "Webhook not set. Run: ServerStriker -setwebhook"
                   "Webhook URL not set. Run ServerStriker -setwebhook")
          as (w' & R & St & Ef).
        rewrite R. exists w'. split; [reflexivity|].
        split; [exact St|]. exists []. split; [exact Ef | reflexivity].
      * unfold bind at 1.
        match goal with
        | |- context [emit ?ev w1] =>
            pose proof (effect_emit ev w1) as E2;
            set (post := ev) in *
        end.
        unfold emit in *. cbn [snd] in E2. cbv beta iota.
        destruct (requests_post env) as [text|].
        -- run_log w3 R3 E3 S3. exists w3. split; [reflexivity|].
           split; [cbn [state_file] in S3; congruence|].
           exists [post]. split.
           ++ exact (effect_trans E1 (effect_trans E2 E3)).
           ++ subst post. eexists _, _. reflexivity.
        -- unfold ret. eexists. split; [reflexivity|].
           split; [exact S1|].
           exists [post]. split.
           ++ exact (effect_trans E1 E2).
           ++ subst post. eexists _, _. reflexivity.
Qed.

Lemma count_app (p : Event -> bool) (a b : list Event) :
  count p (a ++ b) = count p a + count p b.
Proof. unfold count. now rewrite filter_app, length_app. Qed.

Lemma count_is_active_calls (p : Event -> bool) (l : list string) :
  (forall s, p (SystemctlIsActive s) = false) ->
  count p (rev (map SystemctlIsActive l)) = 0.
Proof.
  intros Hp. induction l as [|s l IH]; [reflexivity|].
  cbn [map rev]. rewrite count_app, IH. unfold count. simpl.
  now rewrite Hp.
Qed.

Lemma monitored_services_same (w w' : World) :
  config_file w' = config_file w ->
  monitored_services w' = monitored_services w.
Proof. intros H. unfold monitored_services. now rewrite H. Qed.

Lemma webhook_configured_same (w w' : World) :
  config_file w' = config_file w ->
  webhook_configured w' = webhook_configured w.
Proof. intros H. unfold webhook_configured. now rewrite H. Qed.

Lemma failed_logins_same (env : Env) (w w' : World) :
  auth_log w' = auth_log w -> failed_logins env w' = failed_logins env w.
Proof. intros H. unfold failed_logins. now rewrite H. Qed.

(** The four status checks either all answer, and then their findings and
    calls are these, or a metric sample raises, and then only metric samples
    were taken. *)
Lemma status_checks_run (env : Env) (show : bool) (all_messages : list string)
    (w : World) :
  exists r w',
    status_checks env show all_messages w = (r, w') /\
    state_file w' = state_file w /\
    match r with
    | Ok messages =>
        exists cpu mem disk,
          cpu_percent env = Ok cpu /\
          virtual_memory_percent env = Ok mem /\
          disk_usage_percent env = Ok disk /\
          messages =
            (all_messages ++ status_findings env show cpu mem disk w)%list /\
          effect (status_calls w) w w'
    | Raise e =>
        sample_raises env e /\
        exists added,
          effect added w w' /\
          count is_open_auth added = 0 /\ count is_post added = 0
    end.
Proof.
  unfold status_checks, status_findings, status_calls, extend, bind.
  unfold sample_raises.
  rewrite check_cpu_usage_run.
  pose proof (effect_emit CpuPercent w) as E1.
  set (w1 := snd (emit CpuPercent w)) in *.
  destruct (cpu_percent env) as [cpu|e].
  2: { exists (Raise e), w1. split; [reflexivity|]. split; [reflexivity|].
       split; [now left|].
       exists [CpuPercent]. split; [exact E1|]. split; reflexivity. }
  rewrite check_memory_usage_run.
  pose proof (effect_emit VirtualMemory w1) as E2.
  set (w2 := snd (emit VirtualMemory w1)) in *.
  destruct (virtual_memory_percent env) as [mem|e].
  2: { exists (Raise e), w2. split; [reflexivity|]. split; [reflexivity|].
       split; [now right; left|].
       exists [VirtualMemory; CpuPercent].
       split; [exact (effect_trans E1 E2)|]. split; reflexivity. }
  rewrite check_disk_usage_run.
  pose proof (effect_emit DiskUsage w2) as E3.
  set (w3 := snd (emit DiskUsage w2)) in *.
  destruct (disk_usage_percent env) as [disk|e].
  2: { exists (Raise e), w3. split; [reflexivity|]. split; [reflexivity|].
       split; [now right; right|].
       exists [DiskUsage; VirtualMemory; CpuPercent].
       split; [exact (effect_trans (effect_trans E1 E2) E3)|].
       split; reflexivity. }
  destruct (check_running_services_run env show w3) as (w' & R & E4 & S4).
  rewrite R. unfold ret.
  assert (Hm : monitored_services w3 = monitored_services w) by reflexivity.
  rewrite Hm in *.
  eexists _, w'. split; [reflexivity|].
  split; [exact S4|].
  exists cpu, mem, disk.
  split; [reflexivity|]. split; [reflexivity|]. split; [reflexivity|].
  split; [now rewrite <- !app_assoc|].
  exact (effect_trans (effect_trans (effect_trans E1 E2) E3) E4).
Qed.

Lemma scan_lines_plain (lines : list string) :
  Forall (fun m => is_security_finding m = false) (scan_lines lines).
Proof.
  unfold scan_lines. apply Forall_forall. intros m Hm.
  apply in_map_iff in Hm. destruct Hm as (line & <- & _). reflexivity.
Qed.

Lemma frequent_checks_eq (env : Env) (all_messages : list string) (w : World) :
  frequent_checks env all_messages w = status_checks env false all_messages w.
Proof. reflexivity. Qed.

Lemma daily_checks_eq (env : Env) (all_messages : list string) (w : World) :
  daily_checks env all_messages w =
  (all_messages <- status_checks env true all_messages ;;
   all_messages <- security_check env all_messages ;;
   m <- check_system_errors env ;;
   let all_messages := extend all_messages m in
   m <- check_pending_updates env ;;
   let all_messages := extend all_messages m in
   m <- check_services_status env ;;
   ret (extend all_messages m)) w.
Proof.
  unfold daily_checks, status_checks, bind, ret.
  destruct (check_cpu_usage env true w) as [[m1|e1] w1]; [|reflexivity].
  destruct (check_memory_usage env true w1) as [[m2|e2] w2]; [|reflexivity].
  destruct (check_disk_usage env true w2) as [[m3|e3] w3]; [|reflexivity].
  destruct (check_running_services env true w3) as [[m4|e4] w4]; reflexivity.
Qed.

(** The daily checks either run to their end, and then their findings and
    calls are these, or a metric sample raises before anything else was
    done. *)
Lemma daily_checks_run (env : Env) (all_messages : list string) (w : World) :
  exists r w',
    daily_checks env all_messages w = (r, w') /\
    config_file w' = config_file w /\
    match r with
    | Ok messages =>
        exists cpu mem disk later,
          cpu_percent env = Ok cpu /\
          virtual_memory_percent env = Ok mem /\
          disk_usage_percent env = Ok disk /\
          messages =
            (all_messages ++ status_findings env true cpu mem disk w
             ++ security_findings (failed_logins env w) ++ later)%list /\
          Forall (fun m => is_security_finding m = false) later /\
          trace w' =
            ([SystemctlListFailed; AptList]
             ++ (if 5 <? failed_logins env w
                 then remediation_calls env w else [])
             ++ GrepAuthLog :: status_calls w ++ trace w)%list /\
          auth_log w' =
            (if 5 <? failed_logins env w then remediated env w
             else auth_log w)
    | Raise e =>
        sample_raises env e /\
        exists added,
          effect added w w' /\
          count is_open_auth added = 0 /\ count is_post added = 0
    end.
Proof.
  rewrite daily_checks_eq. unfold bind at 1.
  destruct (status_checks_run env true all_messages w)
    as (r1 & w1 & R1 & S1 & H1).
  rewrite R1. destruct r1 as [m1|e].
  2: { exists (Raise e), w1. split; [reflexivity|].
       destruct H1 as (Hs & added & Ef & Ha & Hp).
       split; [apply Ef|]. split; [exact Hs|].
       exists added. split; [exact Ef|]. split; assumption. }
  destruct H1 as (cpu & mem & disk & Hc & Hm & Hd & -> & E1).
  destruct E1 as (C1 & A1 & T1 & x1 & W1 & L1).
  unfold bind at 1.
  destruct (security_check_run env
              (all_messages ++ status_findings env true cpu mem disk w)%list w1)
    as (w2 & R2 & A2 & T2 & C2 & S2 & x2 & W2 & L2).
  rewrite R2.
  rewrite (failed_logins_same env _ _ A1) in *.
  destruct (remediated_same_auth env _ _ A1) as [Hr Hcalls].
  rewrite Hr, Hcalls in *.
  unfold bind at 1.
  destruct (check_system_errors_total env w2) as (lines & w3 & R3 & E3).
  rewrite R3.
  destruct E3 as (C3 & A3 & T3 & x3 & W3 & L3).
  unfold bind at 1.
  destruct (check_pending_updates_run env w3)
    as (m4 & w4 & R4 & E4 & S4 & P4).
  rewrite R4.
  destruct E4 as (C4 & A4 & T4 & x4 & W4 & L4).
  unfold bind at 1.
  destruct (check_services_status_run env w4)
    as (m5 & w5 & R5 & E5 & S5 & P5).
  rewrite R5.
  destruct E5 as (C5 & A5 & T5 & x5 & W5 & L5).
  unfold ret, extend.
  eexists _, w5. split; [reflexivity|].
  split; [congruence|].
  exists cpu, mem, disk, (scan_lines lines ++ m4 ++ m5)%list.
  split; [exact Hc|]. split; [exact Hm|]. split; [exact Hd|].
  split; [now rewrite <- !app_assoc|].
  split.
  { apply Forall_app. split; [apply scan_lines_plain|].
    apply Forall_app. split; assumption. }
  split.
  { rewrite T5, T4, T3, T2, T1. reflexivity. }
  rewrite A5, A4, A3, A2. destruct (5 <? failed_logins env w); congruence.
Qed.

Lemma dispatch_and_sleep_run (env : Env) (all_messages : list string)
    (w : World) :
  exists w',
    dispatch_and_sleep env all_messages w = (Ok tt, w') /\
    state_file w' = state_file w /\
    exists posted,
      effect (Sleep CHECK_INTERVAL :: posted) w w' /\
      match all_messages with
      | [] => posted = []
      | _ =>
          if webhook_configured w
          then exists url server,
                 posted = [HttpPost url server (utcnow_isoformat env ++ "Z")
                                    (Text.join Text.nl all_messages)]
          else posted = []
      end.
Proof.
  unfold dispatch_and_sleep, bind.
  destruct all_messages as [|m ms].
  - unfold ret. pose proof (effect_emit (Sleep CHECK_INTERVAL) w) as E.
    eexists. split; [reflexivity|]. split; [reflexivity|].
    exists []. split; [exact E | reflexivity].
  - destruct (send_webhook_run env (Text.join Text.nl (m :: ms)) w)
      as (w1 & R1 & S1 & posted & E1 & H1).
    rewrite R1.
    pose proof (effect_emit (Sleep CHECK_INTERVAL) w1) as E.
    eexists. split; [reflexivity|]. split; [exact S1|].
    exists posted. split; [exact (effect_trans E1 E) | exact H1].
Qed.

Lemma status_findings_same (env : Env) (show : bool) (cpu mem disk : N)
    (w w' : World) :
  config_file w' = config_file w ->
  status_findings env show cpu mem disk w'
  = status_findings env show cpu mem disk w.
Proof.
  intros H. unfold status_findings. now rewrite (monitored_services_same _ _ H).
Qed.

Lemma status_calls_same (w w' : World) :
  config_file w' = config_file w -> status_calls w' = status_calls w.
Proof.
  intros H. unfold status_calls. now rewrite (monitored_services_same _ _ H).
Qed.

(** One iteration of the loop: either it runs to its sleep, with these
    findings and calls, or a metric sample raises, and then nothing was
    posted and nothing remediated. *)
Lemma iteration_run (c : Cycle) (last : Z) (w : World) :
  exists r w',
    iteration c last w = (r, w') /\
    config_file w' = config_file w /\
    match r with
    | Ok report =>
        ran_daily report = daily_due (gate_now c) last /\
        new_last_daily_check report =
          (if daily_due (gate_now c) last then end_now c else last) /\
        exists cpu mem disk posted,
          cpu_percent (frequent c) = Ok cpu /\
          virtual_memory_percent (frequent c) = Ok mem /\
          disk_usage_percent (frequent c) = Ok disk /\
          match all_messages report with
          | [] => posted = []
          | _ =>
              if webhook_configured w
              then exists url server,
                     posted =
                       [HttpPost url server
                                 (utcnow_isoformat (dispatch c) ++ "Z")
                                 (Text.join Text.nl (all_messages report))]
              else posted = []
          end /\
          if daily_due (gate_now c) last then
            exists cpu' mem' disk' later,
              cpu_percent (daily c) = Ok cpu' /\
              virtual_memory_percent (daily c) = Ok mem' /\
              disk_usage_percent (daily c) = Ok disk' /\
              all_messages report =
                (status_findings (frequent c) false cpu mem disk w
                 ++ status_findings (daily c) true cpu' mem' disk' w
                 ++ security_findings (failed_logins (daily c) w)
                 ++ later)%list /\
              Forall (fun m => is_security_finding m = false) later /\
              trace w' =
                (Sleep CHECK_INTERVAL :: posted
                 ++ [SystemctlListFailed; AptList]
                 ++ (if 5 <? failed_logins (daily c) w
                     then remediation_calls (daily c) w else [])
                 ++ GrepAuthLog :: status_calls w ++ status_calls w
                 ++ trace w)%list /\
              auth_log w' =
                (if 5 <? failed_logins (daily c) w
                 then remediated (daily c) w else auth_log w)
          else
            all_messages report =
              status_findings (frequent c) false cpu mem disk w /\
            trace w' =
              (Sleep CHECK_INTERVAL :: posted ++ status_calls w ++ trace w)%list /\
            auth_log w' = auth_log w
    | Raise e =>
        (sample_raises (frequent c) e \/
         daily_due (gate_now c) last = true /\ sample_raises (daily c) e) /\
        exists added,
          effect added w w' /\
          count is_open_auth added = 0 /\ count is_post added = 0
    end.
Proof.
  unfold iteration. unfold bind at 1. rewrite frequent_checks_eq.
  destruct (status_checks_run (frequent c) false [] w)
    as (r1 & w1 & R1 & S1 & H1).
  rewrite R1. destruct r1 as [m1|e].
  2: { exists (Raise e), w1. split; [reflexivity|].
       destruct H1 as (Hs & added & Ef & Ha & Hp).
       split; [apply Ef|]. split; [now left|].
       exists added. split; [exact Ef|]. split; assumption. }
  destruct H1 as (cpu & mem & disk & Hc & Hm & Hd & -> & E1).
  cbn [app].
  pose proof E1 as (C1 & A1 & T1 & x1 & W1 & L1).
  destruct (daily_due (gate_now c) last) eqn:Hdue.
  - unfold bind at 1.
    destruct (daily_checks_run (daily c)
                (status_findings (frequent c) false cpu mem disk w) w1)
      as (r2 & w2 & R2 & C2 & H2).
    rewrite R2. destruct r2 as [m2|e].
    2: { exists (Raise e), w2. split; [reflexivity|].
         split; [congruence|].
         destruct H2 as (Hs & added & Ef & Ha & Hp).
         split; [right; split; [reflexivity | exact Hs]|].
         exists (added ++ status_calls w)%list.
         split; [exact (effect_trans E1 Ef)|].
         rewrite !count_app, Ha, Hp.
         unfold status_calls. rewrite !count_app.
         rewrite !count_is_active_calls by reflexivity.
         split; reflexivity. }
    destruct H2 as (cpu' & mem' & disk' & later & Hc' & Hm' & Hd' & -> & Hl
                    & T2 & A2).
    rewrite (status_findings_same (daily c) true cpu' mem' disk' _ _ C1) in *.
    rewrite (status_calls_same _ _ C1) in *.
    rewrite (failed_logins_same (daily c) _ _ A1) in *.
    destruct (remediated_same_auth (daily c) _ _ A1) as [Hr Hcalls].
    rewrite Hr, Hcalls in *.
    unfold bind.
    set (msgs := (status_findings (frequent c) false cpu mem disk w
                  ++ status_findings (daily c) true cpu' mem' disk' w
                  ++ security_findings (failed_logins (daily c) w)
                  ++ later)%list) in *.
    destruct (dispatch_and_sleep_run (dispatch c) msgs w2)
      as (w3 & R3 & S3 & posted & E3 & H3).
    rewrite R3. unfold ret.
    destruct E3 as (C3 & A3 & T3 & x3 & W3 & L3).
    eexists _, w3. split; [reflexivity|].
    split; [congruence|].
    cbn [ran_daily new_last_daily_check all_messages].
    split; [reflexivity|]. split; [reflexivity|].
    exists cpu, mem, disk, posted.
    split; [exact Hc|]. split; [exact Hm|]. split; [exact Hd|].
    split.
    { rewrite (webhook_configured_same w2 w) by congruence. exact H3. }
    exists cpu', mem', disk', later.
    split; [exact Hc'|]. split; [exact Hm'|]. split; [exact Hd'|].
    split; [reflexivity|].
    split; [exact Hl|].
    split.
    { rewrite T3, T2, T1. cbn [app]. rewrite <- ?app_assoc. reflexivity. }
    rewrite A3, A2, A1. reflexivity.
  - unfold bind.
    destruct (dispatch_and_sleep_run (dispatch c)
                (status_findings (frequent c) false cpu mem disk w) w1)
      as (w3 & R3 & S3 & posted & E3 & H3).
    rewrite R3. unfold ret.
    destruct E3 as (C3 & A3 & T3 & x3 & W3 & L3).
    eexists _, w3. split; [reflexivity|].
    split; [congruence|].
    cbn [ran_daily new_last_daily_check all_messages].
    split; [reflexivity|]. split; [reflexivity|].
    exists cpu, mem, disk, posted.
    split; [exact Hc|]. split; [exact Hm|]. split; [exact Hd|].
    split.
    { rewrite (webhook_configured_same w1 w) by congruence. exact H3. }
    split; [reflexivity|].
    split; [|congruence].
    rewrite T3, T1. cbn [app]. rewrite <- ?app_assoc. reflexivity.
Qed.

(* ================================================================== *)
(** ** Resource checks (claim C5) *)
(* ================================================================== *)

(** C5.  Whatever the sample, each of the CPU, memory and disk checks
    returns, in quiet mode, its one finding when the sampled usage is
    strictly above 80% and nothing otherwise, and in verbose mode exactly
    its one finding. *)
Theorem resource_checks_threshold (env : Env) (w : World) (cpu mem disk : N) :
  cpu_percent env = Ok cpu ->
  virtual_memory_percent env = Ok mem ->
  disk_usage_percent env = Ok disk ->
  (fst (check_cpu_usage env false w)
   = Ok (if (800 <? cpu)%N then [cpu_finding cpu] else []) /\
   fst (check_cpu_usage env true w) = Ok [cpu_finding cpu]) /\
  (fst (check_memory_usage env false w)
   = Ok (if (800 <? mem)%N then [memory_finding mem] else []) /\
   fst (check_memory_usage env true w) = Ok [memory_finding mem]) /\
  (fst (check_disk_usage env false w)
   = Ok (if (800 <? disk)%N then [disk_finding disk] else []) /\
   fst (check_disk_usage env true w) = Ok [disk_finding disk]).
Proof.
  intros Hc Hm Hd.
  rewrite !check_cpu_usage_run, !check_memory_usage_run, !check_disk_usage_run.
  rewrite Hc, Hm, Hd. unfold usage_findings. cbn [fst].
  rewrite !orb_false_r, !orb_true_r. repeat split; reflexivity.
Qed.

(** C5 on a host with CPU at 95%, memory at 45.6% and disk at 50%. *)
Lemma resource_checks_threshold_witness :
  (fst (check_cpu_usage loaded_host false rotated_world)
   = Ok ["🔥 High CPU Usage: 95.0%"] /\
   fst (check_cpu_usage loaded_host true rotated_world)
   = Ok ["🔥 High CPU Usage: 95.0%"]) /\
  (fst (check_memory_usage loaded_host false rotated_world) = Ok [] /\
   fst (check_memory_usage loaded_host true rotated_world)
   = Ok ["🚨 High RAM Usage: 45.6%"]) /\
  (fst (check_disk_usage loaded_host false rotated_world) = Ok [] /\
   fst (check_disk_usage loaded_host true rotated_world)
   = Ok ["⚠️ Low Disk Space: 50.0% used"]).
Proof.
  exact (resource_checks_threshold loaded_host rotated_world
           (cpu := 950%N) (mem := 456%N) (disk := 500%N)
           eq_refl eq_refl eq_refl).
Defined.

(* ================================================================== *)
(** ** The log tailer (claims C8 and C2) *)
(* ================================================================== *)




Lemma stored_offset_write_state (position : Z) (w : World) :
  stored_offset (snd (write_state position w)) = position.
Proof. reflexivity. Qed.




(* ================================================================== *)
(** ** Calls counted in a trace *)
(* ================================================================== *)

Lemma posts_app (a b : list Event) : posts (a ++ b) = (posts a ++ posts b)%list.
Proof.
  induction a as [|ev a IH]; [reflexivity|].
  destruct ev; cbn [app posts]; rewrite IH; reflexivity.
Qed.

Lemma posts_none (t : list Event) : count is_post t = 0 -> posts t = [].
Proof.
  induction t as [|ev t IH]; [reflexivity|].
  destruct ev; unfold count in *; cbn [filter is_post posts length];
    try exact IH. discriminate.
Qed.

Lemma count_remediation_calls (env : Env) (w : World) :
  count is_open_auth (remediation_calls env w) = 1 /\
  count is_post (remediation_calls env w) = 0.
Proof.
  unfold remediation_calls, remediated.
  destruct (auth_read_fault env), (auth_log w), (auth_write_fault env);
    split; reflexivity.
Qed.

Lemma count_status_calls (p : Event -> bool) (w : World) :
  (forall s, p (SystemctlIsActive s) = false) ->
  count p (status_calls w) = count p [DiskUsage; VirtualMemory; CpuPercent].
Proof.
  intros Hp. unfold status_calls.
  now rewrite count_app, count_is_active_calls.
Qed.

(** The two shapes of what [dispatch_and_sleep] posts. *)
Lemma posted_cases (all_messages : list string) (configured : bool)
    (stamp : string) (posted : list Event) :
  match all_messages with
  | [] => posted = []
  | _ =>
      if configured
      then exists url server,
             posted = [HttpPost url server stamp (Text.join Text.nl all_messages)]
      else posted = []
  end ->
  count is_open_auth posted = 0 /\
  posts posted =
    match all_messages with
    | [] => []
    | _ => if configured then [Text.join Text.nl all_messages] else []
    end.
Proof.
  destruct all_messages as [|m ms]; [intros ->; split; reflexivity|].
  destruct configured; [|intros ->; split; reflexivity].
  intros (url & server & ->). split; reflexivity.
Qed.

(* ================================================================== *)
(** ** Remediation of the authentication log (claim C3) *)
(* ================================================================== *)




(* ================================================================== *)
(** ** Dispatch (claim C7) *)
(* ================================================================== *)

(** C7 as stated fails.  With findings to send but no configuration, an
    iteration ends without any call of the transport. *)
Lemma no_post_without_webhook :
  let w := fresh_world ConfigAbsent None in
  let run := iteration (example_cycle loaded_host 0%Z) 0%Z w in
  fst run = Ok {| ran_daily := false; new_last_daily_check := 0%Z;
                  all_messages := ["🔥 High CPU Usage: 95.0%"] |} /\
  count is_post (trace (snd run)) = 0.
Proof. vm_compute. split; reflexivity. Qed.

(** C7, amended.  An iteration that reaches its dispatch posts to the
    webhook exactly once when its list of findings is not empty and a
    webhook is configured, and not at all when the list is empty or no
    webhook is configured; the message posted is the join of the findings
    of this iteration, whatever the webhook answered now or before; and an
    iteration ended by an exception posts nothing. *)
Theorem dispatch_once_per_iteration (c : Cycle) (last : Z) (w : World) :
  exists r w',
    iteration c last w = (r, w') /\
    match r with
    | Ok report =>
        posts (trace w') =
          (match all_messages report with
           | [] => []
           | _ =>
               if webhook_configured w
               then [Text.join Text.nl (all_messages report)]
               else []
           end ++ posts (trace w))%list
    | Raise _ => posts (trace w') = posts (trace w)
    end.
Proof.
  destruct (iteration_run c last w) as (r & w' & R & _ & H).
  exists r, w'. split; [exact R|].
  destruct r as [report|e].
  - destruct H as (_ & _ & cpu & mem & disk & posted & _ & _ & _ & Hp & H).
    apply posted_cases in Hp. destruct Hp as [_ Hp].
    assert (Hs : posts (status_calls w) = []).
    { apply posts_none. now rewrite count_status_calls. }
    destruct (daily_due (gate_now c) last).
    + destruct H as (cpu' & mem' & disk' & later & _ & _ & _ & _ & _ & T & _).
      rewrite T.
      change (Sleep CHECK_INTERVAL :: posted ++ ?x)%list
        with ([Sleep CHECK_INTERVAL] ++ posted ++ x)%list.
      change (GrepAuthLog :: ?x)%list with ([GrepAuthLog] ++ x)%list.
      rewrite !posts_app, Hp, Hs.
      assert (Hr : posts (if 5 <? failed_logins (daily c) w
                          then remediation_calls (daily c) w else []) = []).
      { destruct (5 <? failed_logins (daily c) w); [|reflexivity].
        apply posts_none. apply count_remediation_calls. }
      rewrite Hr. reflexivity.
    + destruct H as (_ & T & _). rewrite T.
      change (Sleep CHECK_INTERVAL :: posted ++ ?x)%list
        with ([Sleep CHECK_INTERVAL] ++ posted ++ x)%list.
      rewrite !posts_app, Hp, Hs. reflexivity.
  - destruct H as (_ & added & (_ & _ & T & _) & _ & Hp).
    rewrite T, posts_app, (posts_none _ Hp). reflexivity.
Qed.

(* ================================================================== *)
(** ** Isolation of the checks (claim C1) *)
(* ================================================================== *)

(** The checks that wrap their external call in [try ... except] return
    whatever that call does. *)
Lemma guarded_checks_never_raise (env : Env) (show : bool) (w : World) :
  (exists r w', check_running_services env show w = (Ok r, w')) /\
  (exists r w', check_security_logs env w = (Ok r, w')) /\
  (exists w', clear_ssh_attempts env w = (Ok tt, w')) /\
  (exists r w', check_system_errors env w = (Ok r, w')) /\
  (exists r w', check_pending_updates env w = (Ok r, w')) /\
  (exists r w', check_services_status env w = (Ok r, w')).
Proof.
  repeat split.
  - destruct (check_running_services_run env show w) as (w' & R & _).
    eexists _, w'. exact R.
  - destruct (check_security_logs_run env w) as (w' & R & _).
    eexists _, w'. exact R.
  - destruct (clear_ssh_attempts_run env w) as (w' & R & _).
    exists w'. exact R.
  - destruct (check_system_errors_total env w) as (l & w' & R & _).
    eexists _, w'. exact R.
  - destruct (check_pending_updates_run env w) as (m & w' & R & _).
    exists m, w'. exact R.
  - destruct (check_services_status_run env w) as (m & w' & R & _).
    exists m, w'. exact R.
Qed.

(** An exception of a metric sample leaves the check that took it. *)
Lemma resource_checks_propagate (env : Env) (show : bool) (w : World) (e : exn) :
  (cpu_percent env = Raise e -> fst (check_cpu_usage env show w) = Raise e) /\
  (virtual_memory_percent env = Raise e ->
   fst (check_memory_usage env show w) = Raise e) /\
  (disk_usage_percent env = Raise e ->
   fst (check_disk_usage env show w) = Raise e).
Proof.
  rewrite check_cpu_usage_run, check_memory_usage_run, check_disk_usage_run.
  repeat split; intros ->; reflexivity.
Qed.

(** C1, at the failing input.  When [psutil.disk_usage] raises in the first
    iteration, the exception ends [run_daemon]: the CPU finding already
    collected is not dispatched, and no later check of the iteration is
    run. *)
Theorem disk_probe_exception_ends_daemon :
  let w := fresh_world (ConfigJson example_config) (Some brute_force_log) in
  let run :=
    run_daemon healthy_host 0%Z [example_cycle failing_disk_host 1000000%Z] w in
  fst run = Raise (Exn OSError "[Errno 5] Input/output error: '/'") /\
  trace (snd run) = [DiskUsage; VirtualMemory; CpuPercent] /\
  fst (check_cpu_usage failing_disk_host false w)
  = Ok ["🔥 High CPU Usage: 95.0%"].
Proof. vm_compute. repeat split. Qed.

(* ================================================================== *)
(** ** The monitored services (claim C9) *)
(* ================================================================== *)

(** [_split_services] keeps no empty entry. *)
Lemma split_services_no_empty (services_str : string) :
  Forall (fun service => service <> EmptyString) (_split_services services_str).
Proof.
  unfold _split_services. destruct (Text.is_empty services_str); [constructor|].
  apply Forall_forall. intros x Hx. apply filter_In in Hx.
  destruct Hx as [_ Hx]. intros ->. discriminate.
Qed.

Lemma set_add_spec (x : string) (s : list string) :
  StronglySorted String_as_OT.lt s ->
  StronglySorted String_as_OT.lt (set_add x s) /\
  forall y, In y (set_add x s) <-> y = x \/ In y s.
Proof.
  induction s as [|z s IH]; intros Hs.
  - split; [repeat constructor | intros y; simpl; intuition congruence].
  - apply StronglySorted_inv in Hs. destruct Hs as [Hs Hz].
    cbn [set_add]. destruct (String.compare x z) eqn:E.
    + apply String_as_OT.cmp_eq in E. subst z.
      split; [now constructor | intros y; simpl; intuition congruence].
    + apply String_as_OT.cmp_lt in E. split.
      * constructor; [now constructor|].
        constructor; [exact E|].
        eapply Forall_impl; [|exact Hz].
        intros a Ha. exact (String_as_OT.lt_trans _ _ _ E Ha).
      * intros y. simpl. intuition congruence.
    + assert (Hlt : String_as_OT.lt z x).
      { apply String_as_OT.cmp_lt.
        change (String.compare z x = Lt).
        rewrite String.compare_antisym, E. reflexivity. }
      destruct (IH Hs) as [Hsorted Hin]. split.
      * constructor; [exact Hsorted|].
        apply Forall_forall. intros a Ha. apply Hin in Ha.
        destruct Ha as [->|Ha]; [exact Hlt|].
        rewrite Forall_forall in Hz. now apply Hz.
      * intros y. simpl. rewrite Hin. intuition congruence.
Qed.

Lemma set_of_sorted (l : list string) : StronglySorted String_as_OT.lt (set_of l).
Proof.
  induction l as [|x l IH]; [constructor|].
  cbn [set_of fold_right]. now apply set_add_spec.
Qed.

(** The set [add_service] builds holds no service twice. *)
Lemma set_of_NoDup (l : list string) : NoDup (set_of l).
Proof.
  pose proof (set_of_sorted l) as H.
  induction H as [|x s Hs IH Hx]; constructor; [|exact IH].
  intros Hin. rewrite Forall_forall in Hx.
  apply (String_as_OT.lt_not_eq _ _ (Hx x Hin)). reflexivity.
Qed.

(** [add_service], the sibling write path, stores the join of a list
    without duplicates. *)
Lemma add_service_stores_a_set (env : Env) (service_input : string)
    (w : World) :
  ensure_dirs_fault env = None ->
  exists stored w' c,
    add_service env service_input w = (Ok tt, w') /\
    NoDup stored /\
    config_file w' = ConfigJson c /\
    services c = Some (Text.join "," stored).
Proof.
  intros He. unfold add_service. unfold bind at 1.
  destruct (load_config_effect env w) as (w1 & R1 & _).
  rewrite R1. unfold save_config, ensure_dirs. rewrite He.
  unfold check_fault, bind, ret, print. cbv beta iota.
  set (current := _split_services
                    (get_or services "" (Some (or_empty (loaded w))))).
  assert (Hset : NoDup (if Text.is_empty (Text.strip service_input)
                        then set_of current
                        else set_add (Text.strip service_input)
                                     (set_of current))).
  { destruct (Text.is_empty (Text.strip service_input)).
    - apply set_of_NoDup.
    - change (NoDup (set_of (Text.strip service_input :: current))).
      apply set_of_NoDup. }
  eexists _, _, _. split; [reflexivity|].
  split; [exact Hset|]. split; reflexivity.
Qed.

(** C9, at the failing input.  [init_config] stores the list typed at its
    prompt as it is, so the stored configuration "nginx,nginx" gives a
    monitored list with nginx twice, and a cycle queries nginx twice and
    reports it twice when it is down. *)
Theorem duplicate_services_are_monitored :
  let w := snd (init_config healthy_host "web01" "" "nginx,nginx"
                            (fresh_world ConfigAbsent None)) in
  monitored_services w = ["nginx"; "nginx"] /\
  ~ NoDup (monitored_services w) /\
  check_running_services loaded_host false w
  = (Ok ["❌ nginx is down!"; "❌ nginx is down!"],
     snd (emit (SystemctlIsActive "nginx")
               (snd (emit (SystemctlIsActive "nginx") w)))).
Proof.
  cbv zeta. split; [reflexivity|]. split; [|reflexivity].
  intros H. change (NoDup ["nginx"; "nginx"]) in H.
  inversion H as [|x l Hin _]. apply Hin. now left.
Qed.

(* ================================================================== *)
(** ** The security check (claim C6) *)
(* ================================================================== *)





Lemma samples_answer_no_raise (env : Env) (e : exn) :
  samples_answer env = true -> ~ sample_raises env e.
Proof.
  unfold samples_answer, sample_raises. intros H [R|[R|R]]; rewrite R in H.
  - discriminate.
  - destruct (cpu_percent env); discriminate.
  - destruct (cpu_percent env), (virtual_memory_percent env); discriminate.
Qed.







(* ================================================================== *)
(** ** The iteration with daily checks (claim C10) *)
(* ================================================================== *)

Lemma count_remediation_other (p : Event -> bool) (env : Env) (w : World) :
  p OpenAuthLog = false ->
  (forall content, p (WriteAuthLog content) = false) ->
  count p (remediation_calls env w) = 0.
Proof.
  intros Ho Hw. unfold remediation_calls, remediated, count.
  destruct (auth_read_fault env), (auth_log w), (auth_write_fault env);
    cbn [filter]; rewrite ?Ho, ?Hw; reflexivity.
Qed.

Lemma posted_count_other (p : Event -> bool) (all_messages : list string)
    (configured : bool) (stamp : string) (posted : list Event) :
  (forall url server timestamp message,
     p (HttpPost url server timestamp message) = false) ->
  match all_messages with
  | [] => posted = []
  | _ =>
      if configured
      then exists url server,
             posted = [HttpPost url server stamp (Text.join Text.nl all_messages)]
      else posted = []
  end ->
  count p posted = 0.
Proof.
  intros Hp. destruct all_messages as [|m ms]; [now intros ->|].
  destruct configured; [|now intros ->].
  intros (url & server & ->). unfold count. cbn [filter]. now rewrite Hp.
Qed.

Lemma count_is_active_queries (service : string) (l : list string) :
  count (is_active_query service) (rev (map SystemctlIsActive l))
  = count_occ string_dec l service.
Proof.
  induction l as [|x l IH]; [reflexivity|].
  cbn [map rev count_occ]. rewrite count_app, IH.
  unfold count. cbn [filter is_active_query].
  destruct (String.eqb_spec x service) as [->|Hne].
  - destruct (string_dec service service); [cbn; lia | contradiction].
  - destruct (string_dec x service); [contradiction | cbn; lia].
Qed.

(** The calls of one iteration with daily checks, counted by [p], when [p]
    counts neither the dispatch nor the remediation nor the sleep. *)
Lemma count_daily_iteration (p : Event -> bool) (posted cleared : list Event)
    (w : World) :
  count p posted = 0 ->
  count p cleared = 0 ->
  p (Sleep CHECK_INTERVAL) = false ->
  p SystemctlListFailed = false ->
  p AptList = false ->
  p GrepAuthLog = false ->
  count p (Sleep CHECK_INTERVAL :: posted
           ++ [SystemctlListFailed; AptList]
           ++ cleared
           ++ GrepAuthLog :: status_calls w ++ status_calls w ++ trace w)
  = count p (trace w) + 2 * count p (status_calls w).
Proof.
  intros Hp Hc H1 H2 H3 H4.
  change (Sleep CHECK_INTERVAL :: posted ++ ?x)%list
    with ([Sleep CHECK_INTERVAL] ++ posted ++ x)%list.
  change (GrepAuthLog :: ?x)%list with ([GrepAuthLog] ++ x)%list.
  rewrite !count_app, Hp, Hc. unfold count at 1 2 3.
  cbn [filter]. rewrite H1, H2, H3, H4. cbn [length]. lia.
Qed.

Lemma two_occurrences {A} (x y : A) (p1 s1 p2 s2 rest : list A) :
  exists a b d,
    ((p1 ++ x :: s1) ++ (p2 ++ y :: s2) ++ rest)%list
    = (a ++ x :: b ++ y :: d)%list.
Proof.
  exists p1, (s1 ++ p2)%list, (s2 ++ rest)%list.
  repeat (rewrite <- app_assoc; cbn [app]). reflexivity.
Qed.

Lemma usage_findings_alert (finding : N -> string) (usage : N) (show : bool) :
  (800 < usage)%N -> usage_findings finding usage show = [finding usage].
Proof.
  intros H. unfold usage_findings. apply N.ltb_lt in H. now rewrite H.
Qed.

Lemma two_findings {A} (x y : A) (l1 l2 rest : list A) :
  In x l1 -> In y l2 ->
  exists a b d, (l1 ++ l2 ++ rest)%list = (a ++ x :: b ++ y :: d)%list.
Proof.
  intros H1 H2.
  apply in_split in H1. destruct H1 as (p1 & s1 & ->).
  apply in_split in H2. destruct H2 as (p2 & s2 & ->).
  apply two_occurrences.
Qed.

Lemma status_findings_alerts (env : Env) (show : bool) (cpu mem disk : N)
    (w : World) :
  ((800 < cpu)%N ->
   In (cpu_finding cpu) (status_findings env show cpu mem disk w)) /\
  ((800 < mem)%N ->
   In (memory_finding mem) (status_findings env show cpu mem disk w)) /\
  ((800 < disk)%N ->
   In (disk_finding disk) (status_findings env show cpu mem disk w)) /\
  (forall service,
     In service (monitored_services w) -> is_down env service ->
     In (down_finding service) (status_findings env show cpu mem disk w)).
Proof.
  unfold status_findings. repeat split.
  - intros H. rewrite (usage_findings_alert _ show H).
    apply in_or_app. left. now left.
  - intros H. rewrite (usage_findings_alert _ show H).
    apply in_or_app. right. apply in_or_app. left. now left.
  - intros H. rewrite (usage_findings_alert _ show H).
    do 2 (apply in_or_app; right). apply in_or_app. left. now left.
  - intros service Hin (out & Ho & Hne).
    do 3 (apply in_or_app; right).
    apply in_flat_map. exists service. split; [exact Hin|].
    unfold service_finding. rewrite Ho, Hne. now left.
Qed.

(** C10.  An iteration that runs the daily checks and whose metric samples
    answer samples CPU, memory and disk twice each and queries each
    monitored service twice as often as it is listed; when an alert
    condition holds at both samples (usage above 80%, or a monitored service
    not active), its finding stands twice in the list of findings of the
    iteration, which is posted as one message. *)
Theorem daily_iteration_checks_twice (c : Cycle) (last : Z) (w : World) :
  daily_due (gate_now c) last = true ->
  cycle_answers c = true ->
  exists report w',
    iteration c last w = (Ok report, w') /\
    ran_daily report = true /\
    (count is_cpu (trace w') = count is_cpu (trace w) + 2 /\
     count is_memory (trace w') = count is_memory (trace w) + 2 /\
     count is_disk (trace w') = count is_disk (trace w) + 2 /\
     forall service,
       count (is_active_query service) (trace w')
       = count (is_active_query service) (trace w)
         + 2 * count_occ string_dec (monitored_services w) service) /\
    (forall cpu cpu',
       cpu_percent (frequent c) = Ok cpu -> cpu_percent (daily c) = Ok cpu' ->
       (800 < cpu)%N -> (800 < cpu')%N ->
       exists a b d,
         all_messages report
         = (a ++ cpu_finding cpu :: b ++ cpu_finding cpu' :: d)%list) /\
    (forall mem mem',
       virtual_memory_percent (frequent c) = Ok mem ->
       virtual_memory_percent (daily c) = Ok mem' ->
       (800 < mem)%N -> (800 < mem')%N ->
       exists a b d,
         all_messages report
         = (a ++ memory_finding mem :: b ++ memory_finding mem' :: d)%list) /\
    (forall disk disk',
       disk_usage_percent (frequent c) = Ok disk ->
       disk_usage_percent (daily c) = Ok disk' ->
       (800 < disk)%N -> (800 < disk')%N ->
       exists a b d,
         all_messages report
         = (a ++ disk_finding disk :: b ++ disk_finding disk' :: d)%list) /\
    (forall service,
       In service (monitored_services w) ->
       is_down (frequent c) service -> is_down (daily c) service ->
       exists a b d,
         all_messages report
         = (a ++ down_finding service :: b ++ down_finding service :: d)%list) /\
    (webhook_configured w = true ->
     posts (trace w')
     = Text.join Text.nl (all_messages report) :: posts (trace w)).
Proof.
  intros Hdue Hans.
  unfold cycle_answers in Hans. apply andb_true_iff in Hans.
  destruct Hans as [Hf Hd].
  destruct (iteration_run c last w) as (r & w' & R & _ & H).
  destruct r as [report|e].
  2: { exfalso. destruct H as ([Hs1|[_ Hs1]] & _);
       [exact (@samples_answer_no_raise _ _ Hf Hs1)
       |exact (@samples_answer_no_raise _ _ Hd Hs1)]. }
  exists report, w'. split; [exact R|].
  destruct H as (Hran & _ & cpu & mem & disk & posted & Hc & Hm & Hk & Hp & H).
  rewrite Hdue in *.
  destruct H as (cpu' & mem' & disk' & later & Hc' & Hm' & Hk' & M & _ & T & _).
  split; [exact Hran|].
  set (cleared := if 5 <? failed_logins (daily c) w
                  then remediation_calls (daily c) w else []) in *.
  assert (Hcl : forall p, p OpenAuthLog = false ->
                  (forall content, p (WriteAuthLog content) = false) ->
                  count p cleared = 0).
  { intros p Ho Hw. unfold cleared.
    destruct (5 <? failed_logins (daily c) w); [|reflexivity].
    now apply count_remediation_other. }
  pose proof (status_findings_alerts (frequent c) false cpu mem disk w)
    as (Fc & Fm & Fk & Fs).
  pose proof (status_findings_alerts (daily c) true cpu' mem' disk' w)
    as (Dc & Dm & Dk & Ds).
  split; [|split; [|split; [|split; [|split]]]].
  - rewrite T. repeat split.
    + rewrite count_daily_iteration;
        try reflexivity; [| |now apply Hcl].
      * rewrite count_status_calls by reflexivity. cbn. lia.
      * now apply (posted_count_other is_cpu) in Hp.
    + rewrite count_daily_iteration;
        try reflexivity; [| |now apply Hcl].
      * rewrite count_status_calls by reflexivity. cbn. lia.
      * now apply (posted_count_other is_memory) in Hp.
    + rewrite count_daily_iteration;
        try reflexivity; [| |now apply Hcl].
      * rewrite count_status_calls by reflexivity. cbn. lia.
      * now apply (posted_count_other is_disk) in Hp.
    + intros service. rewrite count_daily_iteration;
        try reflexivity; [| |now apply Hcl].
      * unfold status_calls. rewrite count_app, count_is_active_queries.
        cbn. lia.
      * now apply (posted_count_other (is_active_query service)) in Hp.
  - intros u u' Hu Hu' Hgt Hgt'. rewrite M.
    assert (u = cpu) by congruence. assert (u' = cpu') by congruence.
    subst u u'. apply two_findings; auto.
  - intros u u' Hu Hu' Hgt Hgt'. rewrite M.
    assert (u = mem) by congruence. assert (u' = mem') by congruence.
    subst u u'. apply two_findings; auto.
  - intros u u' Hu Hu' Hgt Hgt'. rewrite M.
    assert (u = disk) by congruence. assert (u' = disk') by congruence.
    subst u u'. apply two_findings; auto.
  - intros service Hin Hq Hv. rewrite M. apply two_findings; auto.
  - intros Hw. apply posted_cases in Hp. destruct Hp as [_ Hp].
    rewrite Hw in Hp.
    assert (Hs : posts (status_calls w) = [])
      by (apply posts_none; now rewrite count_status_calls).
    assert (Hr : posts cleared = [])
      by (apply posts_none; now apply Hcl).
    rewrite T.
    change (Sleep CHECK_INTERVAL :: posted ++ ?x)%list
      with ([Sleep CHECK_INTERVAL] ++ posted ++ x)%list.
    change (GrepAuthLog :: ?x)%list with ([GrepAuthLog] ++ x)%list.
    rewrite !posts_app, Hp, Hs, Hr. cbn [posts app].
    destruct (all_messages report) as [|m ms] eqn:Em; [|reflexivity].
    exfalso. symmetry in M. apply app_eq_nil in M. destruct M as [_ M].
    apply app_eq_nil in M. destruct M as [M _].
    unfold status_findings, usage_findings in M.
    rewrite orb_true_r in M. discriminate.
Qed.

(** C10 on a host with CPU at 95% and every service inactive. *)
Lemma daily_iteration_checks_twice_witness :
  exists report w',
    iteration (example_cycle loaded_host 1000000%Z) (- ONE_DAY)%Z
              (fresh_world (ConfigJson example_config) None)
    = (Ok report, w') /\
    (exists a b d,
       all_messages report
       = (a ++ "🔥 High CPU Usage: 95.0%"
            :: b ++ "🔥 High CPU Usage: 95.0%" :: d)%list) /\
    (exists a b d,
       all_messages report
       = (a ++ "❌ mysql is down!" :: b ++ "❌ mysql is down!" :: d)%list).
Proof.
  destruct (daily_iteration_checks_twice
              (example_cycle loaded_host 1000000%Z) (- ONE_DAY)%Z
              (fresh_world (ConfigJson example_config) None)
              eq_refl eq_refl)
    as (report & w' & R & _ & _ & Hcpu & _ & _ & Hsvc & _).
  exists report, w'. split; [exact R|]. split.
  - apply (Hcpu 950%N 950%N eq_refl eq_refl); reflexivity.
  - apply (Hsvc "mysql").
    + right. left. reflexivity.
    + exists ("inactive" ++ Text.nl). split; reflexivity.
    + exists ("inactive" ++ Text.nl). split; reflexivity.
Defined.

(* ================================================================== *)
(** ** The schedule of the daily checks (claim C4) *)
(* ================================================================== *)







(* ================================================================== *)
(** ** Service lists as text *)
(* ================================================================== *)

Unset Implicit Arguments.

Lemma rstrip_idempotent (s : string) : Text.rstrip (Text.rstrip s) = Text.rstrip s.
Proof.
  induction s as [|c s IH]; [reflexivity|].
  cbn [Text.rstrip].
  destruct (Text.is_space c && Text.is_empty (Text.rstrip s)) eqn:E;
    [reflexivity|].
  cbn [Text.rstrip]. rewrite IH, E. reflexivity.
Qed.

Lemma lstrip_head (s : string) :
  Text.lstrip s = EmptyString \/
  exists c r, Text.lstrip s = String c r /\ Text.is_space c = false.
Proof.
  induction s as [|c s IH]; [now left|].
  cbn [Text.lstrip]. destruct (Text.is_space c) eqn:E; [exact IH|].
  right. exists c, s. split; [reflexivity | exact E].
Qed.

Lemma lstrip_rstrip_head (c : ascii) (r : string) :
  Text.is_space c = false ->
  Text.lstrip (Text.rstrip (String c r)) = Text.rstrip (String c r).
Proof.
  intros E. cbn [Text.rstrip]. rewrite E. cbn [andb Text.lstrip].
  now rewrite E.
Qed.

Lemma strip_idempotent (s : string) : Text.strip (Text.strip s) = Text.strip s.
Proof.
  unfold Text.strip.
  destruct (lstrip_head s) as [E|(c & r & E & Hc)]; rewrite E.
  - reflexivity.
  - rewrite (lstrip_rstrip_head c r Hc). apply rstrip_idempotent.
Qed.

Lemma comma_free_lstrip (s : string) :
  comma_free s = true -> comma_free (Text.lstrip s) = true.
Proof.
  induction s as [|c s IH]; intros H; [reflexivity|].
  cbn [Text.lstrip]. destruct (Text.is_space c); [|exact H].
  cbn [comma_free] in H. apply andb_true_iff in H. now apply IH.
Qed.

Lemma comma_free_rstrip (s : string) :
  comma_free s = true -> comma_free (Text.rstrip s) = true.
Proof.
  induction s as [|c s IH]; intros H; [reflexivity|].
  cbn [comma_free] in H. apply andb_true_iff in H. destruct H as [Hc H].
  cbn [Text.rstrip].
  destruct (Text.is_space c && Text.is_empty (Text.rstrip s)); [reflexivity|].
  cbn [comma_free]. now rewrite Hc, IH.
Qed.

Lemma split_comma_pieces (s : string) :
  Forall (fun piece => comma_free piece = true) (Text.split "," s).
Proof.
  induction s as [|c s IH]; [repeat constructor|].
  cbn [Text.split]. destruct (Ascii.eqb c ",") eqn:E.
  - constructor; [reflexivity | exact IH].
  - destruct (Text.split "," s) as [|h t]; [repeat constructor; cbn; now rewrite E|].
    apply Forall_cons_iff in IH. destruct IH as [Hh Ht].
    constructor; [|exact Ht]. cbn [comma_free]. now rewrite E, Hh.
Qed.

Lemma split_services_clean (services_str : string) :
  forallb clean_name (_split_services services_str) = true.
Proof.
  apply forallb_forall. intros x Hx. unfold _split_services in Hx.
  destruct (Text.is_empty services_str); [destruct Hx|].
  apply filter_In in Hx. destruct Hx as [Hin Hne].
  apply in_map_iff in Hin. destruct Hin as (piece & <- & Hp).
  pose proof (split_comma_pieces services_str) as Hc.
  rewrite Forall_forall in Hc. specialize (Hc piece Hp).
  unfold clean_name. rewrite Hne, strip_idempotent, String.eqb_refl.
  cbn [andb]. unfold Text.strip.
  now apply comma_free_rstrip, comma_free_lstrip.
Qed.

(** X1.  Every entry [_split_services] returns is a clean name: not empty,
    without whitespace at either end, without comma. *)
Theorem split_services_entries_clean (services_str : string) :
  forallb clean_name (_split_services services_str) = true.
Proof. exact (split_services_clean services_str). Qed.

Lemma split_never_empty (sep : ascii) (s : string) : Text.split sep s <> [].
Proof.
  destruct s as [|c s]; [discriminate|]. cbn [Text.split].
  destruct (Ascii.eqb c sep); [discriminate|].
  destruct (Text.split sep s); discriminate.
Qed.

Lemma split_comma_free (x : string) :
  comma_free x = true -> Text.split "," x = [x].
Proof.
  induction x as [|c x IH]; intros H; [reflexivity|].
  cbn [comma_free] in H. apply andb_true_iff in H. destruct H as [Hc H].
  apply negb_true_iff in Hc. cbn [Text.split]. now rewrite Hc, (IH H).
Qed.

Lemma split_piece (x t : string) :
  comma_free x = true ->
  Text.split "," (x ++ String "," t) = x :: Text.split "," t.
Proof.
  induction x as [|c x IH]; intros H; [reflexivity|].
  cbn [comma_free] in H. apply andb_true_iff in H. destruct H as [Hc H].
  apply negb_true_iff in Hc.
  change (String c x ++ String "," t) with (String c (x ++ String "," t)).
  cbn [Text.split]. now rewrite Hc, (IH H).
Qed.

Lemma split_padded (pad u : string) :
  all_space pad = true ->
  map Text.strip (Text.split "," (pad ++ u))
  = map Text.strip (Text.split "," u).
Proof.
  induction pad as [|c pad IH]; intros H; [reflexivity|].
  cbn [all_space] in H. apply andb_true_iff in H. destruct H as [Hc H].
  change (String c pad ++ u) with (String c (pad ++ u)).
  cbn [Text.split].
  assert (Hcomma : Ascii.eqb c "," = false).
  { destruct (Ascii.eqb_spec c ","%char) as [->|]; [discriminate Hc | reflexivity]. }
  rewrite Hcomma. specialize (IH H).
  destruct (Text.split "," (pad ++ u)) as [|h t] eqn:E;
    [now apply split_never_empty in E|].
  rewrite <- IH. cbn [map]. f_equal.
  unfold Text.strip. cbn [Text.lstrip]. now rewrite Hc.
Qed.

Lemma clean_name_inv (x : string) :
  clean_name x = true ->
  Text.is_empty x = false /\ Text.strip x = x /\ comma_free x = true.
Proof.
  unfold clean_name. intros H.
  apply andb_true_iff in H. destruct H as [H Hc].
  apply andb_true_iff in H. destruct H as [Hn Hs].
  apply negb_true_iff in Hn. apply String.eqb_eq in Hs. now repeat split.
Qed.

Lemma split_join_clean (pad : string) (l : list string) :
  all_space pad = true ->
  forallb clean_name l = true ->
  l <> [] ->
  map Text.strip (Text.split "," (Text.join (String "," pad) l)) = l.
Proof.
  intros Hpad. induction l as [|x l IH]; intros Hl Hne; [contradiction|].
  cbn [forallb] in Hl. apply andb_true_iff in Hl. destruct Hl as [Hx Hl].
  destruct (clean_name_inv x Hx) as (_ & Hs & Hc).
  destruct l as [|y r].
  - cbn [Text.join]. rewrite (split_comma_free x Hc). cbn [map]. now rewrite Hs.
  - change (Text.join (String "," pad) (x :: y :: r))
      with (x ++ String "," (pad ++ Text.join (String "," pad) (y :: r))).
    rewrite (split_piece _ _ Hc). cbn [map]. rewrite Hs. f_equal.
    rewrite (split_padded _ _ Hpad). apply IH; [exact Hl | discriminate].
Qed.

Lemma split_services_join (pad : string) (l : list string) :
  all_space pad = true ->
  forallb clean_name l = true ->
  _split_services (Text.join (String "," pad) l) = l.
Proof.
  intros Hpad Hl. destruct l as [|x r] eqn:El.
  { reflexivity. }
  rewrite <- El in *.
  assert (Hne : l <> []) by (rewrite El; discriminate).
  unfold _split_services.
  assert (Hj : Text.is_empty (Text.join (String "," pad) l) = false).
  { rewrite El. rewrite El in Hl. cbn [forallb] in Hl.
    apply andb_true_iff in Hl. destruct Hl as [Hx _].
    destruct (clean_name_inv x Hx) as (Hn & _ & _).
    destruct x; [discriminate|]. destruct r; reflexivity. }
  rewrite Hj, (split_join_clean pad l Hpad Hl Hne).
  clear Hj Hne El. induction l as [|y l IH]; [reflexivity|].
  cbn [forallb] in Hl. apply andb_true_iff in Hl. destruct Hl as [Hy Hl].
  destruct (clean_name_inv y Hy) as (Hn & _ & _).
  cbn [filter]. rewrite Hn. cbn [negb]. now rewrite (IH Hl).
Qed.

(** X2.  A list of clean names written with "," or with "," and blanks
    between them (both formats the comment of [_split_services] promises)
    is read back as it was. *)
Theorem split_services_reads_back (pad : string) (l : list string) :
  all_space pad = true ->
  forallb clean_name l = true ->
  _split_services (Text.join (String "," pad) l) = l.
Proof. exact (split_services_join pad l). Qed.

(** X2 on the two spellings of the comment in the source. *)
Lemma split_services_reads_back_witness :
  _split_services "nginx, mysql" = ["nginx"; "mysql"] /\
  _split_services "nginx,mysql" = ["nginx"; "mysql"].
Proof.
  split.
  - exact (split_services_reads_back " " ["nginx"; "mysql"] eq_refl eq_refl).
  - exact (split_services_reads_back "" ["nginx"; "mysql"] eq_refl eq_refl).
Defined.

(* ================================================================== *)
(** ** The commands that edit the configuration *)
(* ================================================================== *)

Lemma set_of_In (l : list string) (y : string) : In y (set_of l) <-> In y l.
Proof.
  induction l as [|x l IH]; [reflexivity|].
  cbn [set_of fold_right]. fold (set_of l).
  destruct (set_add_spec x (set_of_sorted l)) as [_ H].
  rewrite H, IH. cbn [In]. intuition congruence.
Qed.

Lemma monitored_services_loaded (w : World) :
  _split_services (get_or services "" (Some (or_empty (loaded w))))
  = monitored_services w.
Proof.
  unfold monitored_services, loaded, or_empty.
  destruct (config_file w) as [|e|c]; try reflexivity.
  destruct (config_missing (Some c)); reflexivity.
Qed.

Lemma monitored_services_clean (w : World) :
  forallb clean_name (monitored_services w) = true.
Proof.
  unfold monitored_services. destruct (config_file w) as [|e|c]; try reflexivity.
  destruct (config_missing (Some c)); [reflexivity|].
  apply split_services_clean.
Qed.

Lemma forallb_set_add (p : string -> bool) (x : string) (s : list string) :
  p x = true -> forallb p s = true -> forallb p (set_add x s) = true.
Proof.
  intros Hx. induction s as [|y s IH]; intros Hs; cbn [set_add].
  - cbn. now rewrite Hx.
  - cbn [forallb] in Hs. apply andb_true_iff in Hs. destruct Hs as [Hy Hs].
    destruct (String.compare x y); cbn [forallb]; rewrite ?Hx, ?Hy, ?Hs, ?IH;
      auto.
Qed.

Lemma forallb_set_of (p : string -> bool) (l : list string) :
  forallb p l = true -> forallb p (set_of l) = true.
Proof.
  induction l as [|x l IH]; intros H; [reflexivity|].
  cbn [forallb] in H. apply andb_true_iff in H. destruct H as [Hx H].
  cbn [set_of fold_right]. apply forallb_set_add; [exact Hx | now apply IH].
Qed.

(** X3.  [add_service] with a name without comma makes the monitored list
    the sorted duplicate-free set of the services monitored before and the
    new name: every old service is kept, the new one is there (unless the
    answer was blank), and none stands twice. *)
Theorem add_service_extends_the_set (env : Env) (service_input : string)
    (w : World) :
  ensure_dirs_fault env = None ->
  comma_free (Text.strip service_input) = true ->
  exists w',
    add_service env service_input w = (Ok tt, w') /\
    monitored_services w' =
      (if Text.is_empty (Text.strip service_input)
       then set_of (monitored_services w)
       else set_add (Text.strip service_input)
                    (set_of (monitored_services w))) /\
    NoDup (monitored_services w') /\
    forall y,
      In y (monitored_services w') <->
      (Text.is_empty (Text.strip service_input) = false /\
       y = Text.strip service_input) \/
      In y (monitored_services w).
Proof.
  intros He Hc. unfold add_service. unfold bind at 1.
  destruct (load_config_effect env w) as (w1 & R1 & _).
  rewrite R1. unfold save_config, ensure_dirs. rewrite He.
  unfold check_fault, bind, ret, print. cbv beta iota.
  rewrite monitored_services_loaded.
  set (new := Text.strip service_input) in *.
  set (old := monitored_services w).
  set (stored := if Text.is_empty new then set_of old else set_add new (set_of old)).
  assert (Hclean : forallb clean_name stored = true).
  { assert (Hold : forallb clean_name (set_of old) = true)
      by (apply forallb_set_of; apply monitored_services_clean).
    unfold stored. destruct (Text.is_empty new) eqn:En; [exact Hold|].
    apply forallb_set_add; [|exact Hold].
    unfold clean_name, new. rewrite strip_idempotent, String.eqb_refl.
    fold new. now rewrite En, Hc. }
  assert (Hnodup : NoDup stored).
  { unfold stored. destruct (Text.is_empty new).
    - apply set_of_NoDup.
    - change (NoDup (set_of (new :: old))). apply set_of_NoDup. }
  eexists. split; [reflexivity|].
  assert (Hm : forall w0 c0,
             config_file w0 = ConfigJson c0 ->
             services c0 = Some (Text.join "," stored) ->
             monitored_services w0 = stored).
  { intros w0 c0 H0 Hs. unfold monitored_services. rewrite H0.
    assert (Hmiss : config_missing (Some c0) = false).
    { unfold config_missing. rewrite Hs.
      destruct (server_name c0), (webhook_url c0); reflexivity. }
    rewrite Hmiss. unfold get_or. rewrite Hs.
    exact (split_services_join "" stored eq_refl Hclean). }
  match goal with
  | |- monitored_services ?w0 = _ /\ _ =>
      rewrite (Hm w0 _ eq_refl eq_refl)
  end.
  split; [reflexivity|]. split; [exact Hnodup|].
  intros y. unfold stored. destruct (Text.is_empty new) eqn:En.
  - rewrite set_of_In. intuition discriminate.
  - destruct (set_add_spec new (set_of_sorted old)) as [_ H].
    rewrite H, set_of_In. intuition.
Qed.

(** X3 on a configuration listing nginx and mysql. *)
Lemma add_service_extends_the_set_witness :
  exists w',
    add_service healthy_host " apache "
                (fresh_world (ConfigJson example_config) None) = (Ok tt, w') /\
    monitored_services w' = ["apache"; "mysql"; "nginx"].
Proof.
  destruct (add_service_extends_the_set healthy_host " apache "
              (fresh_world (ConfigJson example_config) None) eq_refl eq_refl)
    as (w' & R & M & _).
  exists w'. split; [exact R | exact M].
Defined.

(** What [send_webhook] does when a webhook is configured: one POST to the
    stripped URL, and one log entry when the POST fails. *)
Lemma send_webhook_configured (env : Env) (message : string) (w : World)
    (c : Config) :
  config_file w = ConfigJson c ->
  config_missing (Some c) = false ->
  Text.is_empty (Text.strip (get_or webhook_url "" (Some c))) = false ->
  exists w',
    send_webhook env message w = (Ok tt, w') /\
    trace w' =
      HttpPost (Text.strip (get_or webhook_url "" (Some c)))
               (get_or server_name "Unknown Server" (Some c))
               (utcnow_isoformat env ++ "Z") message :: trace w /\
    state_file w' = state_file w /\
    log_file w' =
      log_file w ++
      match requests_post env with
      | Some text =>
          if log_append_denied env then EmptyString
          else "[" ++ strftime_now env (log_entries w) ++ "] "
               ++ ("Webhook error: " ++ text) ++ Text.nl
      | None => EmptyString
      end.
Proof.
  intros Hc Hm Hu.
  unfold send_webhook, load_config. unfold bind at 1. unfold bind at 1.
  unfold get at 1. cbv beta iota. rewrite Hc. unfold ret at 1.
  cbv beta iota. rewrite Hm, Hu.
  unfold bind at 1, emit. cbv beta iota.
  destruct (requests_post env) as [text|].
  - unfold log_message, bind, get, log_write. cbv beta iota. cbn [log_entries log_file].
    eexists. split; [reflexivity|]. cbn [trace state_file log_file].
    split; [reflexivity|]. split; [reflexivity|].
    destruct (log_append_denied env); cbn [negb];
      [now rewrite append_empty_r | reflexivity].
  - unfold ret. eexists. split; [reflexivity|]. cbn [trace state_file log_file].
    split; [reflexivity|]. split; [reflexivity|]. now rewrite append_empty_r.
Qed.

(** X4.  [set_webhook] stores the stripped answer as the webhook URL and
    leaves the server name and the monitored services as they were; from
    then on [send_webhook] posts each message once to that URL, under the
    configured server name or "Unknown Server" when none is configured;
    with a blank answer no webhook is configured afterwards. *)
Theorem set_webhook_configures_dispatch (env : Env) (webhook_input : string)
    (w : World) :
  ensure_dirs_fault env = None ->
  exists w1,
    set_webhook env webhook_input w = (Ok tt, w1) /\
    monitored_services w1 = monitored_services w /\
    webhook_configured w1 = negb (Text.is_empty (Text.strip webhook_input)) /\
    (Text.is_empty (Text.strip webhook_input) = false ->
     forall env' message,
       exists w2,
         send_webhook env' message w1 = (Ok tt, w2) /\
         trace w2 =
           HttpPost (Text.strip webhook_input)
                    (get_or server_name "Unknown Server"
                            (Some (or_empty (loaded w))))
                    (utcnow_isoformat env' ++ "Z") message :: trace w1).
Proof.
  intros He. unfold set_webhook. unfold bind at 1.
  destruct (load_config_effect env w) as (w0 & R0 & (C0 & _) & _).
  rewrite R0. unfold save_config, ensure_dirs. rewrite He.
  unfold check_fault, bind, ret, print. cbv beta iota.
  set (old := or_empty (loaded w)).
  set (c1 := {| server_name := server_name old;
                webhook_url := Some (Text.strip webhook_input);
                services := services old |}).
  eexists. split; [reflexivity|].
  assert (Hmiss : config_missing (Some c1) = false).
  { unfold config_missing, c1. cbn [server_name webhook_url services].
    destruct (server_name old); reflexivity. }
  split; [|split].
  - unfold monitored_services at 1. cbn [config_file]. fold c1.
    rewrite Hmiss. rewrite <- monitored_services_loaded. reflexivity.
  - unfold webhook_configured. cbn [config_file]. fold c1.
    rewrite Hmiss. unfold get_or. cbn [webhook_url c1].
    now rewrite strip_idempotent.
  - intros Hne env' message.
    match goal with
    | |- exists w2, send_webhook _ _ ?w1 = _ /\ _ =>
        destruct (send_webhook_configured env' message w1 c1 eq_refl Hmiss)
          as (w2 & R & T & _)
    end.
    + unfold get_or. cbn [webhook_url c1]. now rewrite strip_idempotent.
    + exists w2. split; [exact R|]. rewrite T.
      unfold get_or at 1 2. cbn [webhook_url server_name c1].
      rewrite strip_idempotent. reflexivity.
Qed.

(** X4 on a host without configuration. *)
Lemma set_webhook_configures_dispatch_witness :
  exists w1 w2,
    set_webhook healthy_host "  https://hooks.example.org/T2 "
                (fresh_world ConfigAbsent None) = (Ok tt, w1) /\
    send_webhook loaded_host "disk full" w1 = (Ok tt, w2) /\
    trace w2 = [HttpPost "https://hooks.example.org/T2" "Unknown Server"
                         "2024-01-01T00:00:00Z" "disk full"].
Proof.
  destruct (set_webhook_configures_dispatch healthy_host
              "  https://hooks.example.org/T2 "
              (fresh_world ConfigAbsent None) eq_refl)
    as (w1 & R1 & _ & _ & H).
  destruct (H eq_refl loaded_host "disk full") as (w2 & R2 & T2).
  exists w1, w2. split; [exact R1|]. split; [exact R2|].
  rewrite T2. injection R1 as <-. reflexivity.
Defined.

Lemma slice_to_length (n : nat) (s : string) :
  String.length (slice_to n s) = Nat.min n (String.length s).
Proof.
  revert s. induction n as [|n IH]; intros [|c s]; cbn; try reflexivity.
  now rewrite IH.
Qed.

Lemma slice_to_all (n : nat) (s : string) :
  String.length s <= n -> slice_to n s = s.
Proof.
  revert s. induction n as [|n IH]; intros [|c s] H; cbn in *;
    try reflexivity; try lia.
  rewrite IH by lia. reflexivity.
Qed.

(** X5.  [show_config] prints the configuration with the server name and
    the services unchanged and a non-empty webhook URL replaced by its first
    35 characters followed by "...": never more than 38 characters, and a
    URL of at most 35 characters is printed whole. *)
Theorem show_config_masks_webhook (json_dumps : Config -> string) (env : Env)
    (w : World) (c : Config) (url : string) :
  config_file w = ConfigJson c ->
  webhook_url c = Some url ->
  Text.is_empty url = false ->
  exists shown masked,
    show_config json_dumps env w
    = (Ok tt, snd (print (json_dumps shown) w)) /\
    server_name shown = server_name c /\
    services shown = services c /\
    webhook_url shown = Some masked /\
    masked = slice_to 35 url ++ "..." /\
    String.length masked <= 38 /\
    (String.length url <= 35 -> masked = url ++ "...").
Proof.
  intros Hc Hu Hne.
  exists (safe_config c), (slice_to 35 url ++ "...").
  assert (Hmiss : config_missing (Some c) = false).
  { unfold config_missing. rewrite Hu. destruct (server_name c); reflexivity. }
  split.
  { unfold show_config, load_config, bind, get, ret. rewrite Hc.
    cbv beta iota. rewrite Hmiss. reflexivity. }
  unfold safe_config. rewrite Hu, Hne. cbn [server_name services webhook_url].
  repeat split.
  - rewrite length_append, slice_to_length. cbn [String.length]. lia.
  - intros Hlen. now rewrite slice_to_all.
Qed.

(** X5 on the example configuration. *)
Lemma show_config_masks_webhook_witness :
  exists shown,
    show_config (fun c => get_or webhook_url "" (Some c)) healthy_host
                (fresh_world (ConfigJson example_config) None)
    = (Ok tt, snd (print (get_or webhook_url "" (Some shown))
                         (fresh_world (ConfigJson example_config) None))) /\
    webhook_url shown = Some "https://hooks.example.org/T1...".
Proof.
  destruct (show_config_masks_webhook
              (fun c => get_or webhook_url "" (Some c)) healthy_host
              (fresh_world (ConfigJson example_config) None)
              example_config "https://hooks.example.org/T1"
              eq_refl eq_refl eq_refl)
    as (shown & masked & R & _ & _ & Hw & _ & _ & Hshort).
  exists shown. split; [exact R|].
  rewrite Hw, Hshort; [reflexivity | cbn; lia].
Defined.

(* ================================================================== *)
(** ** What the service check reports *)
(* ================================================================== *)




(* ================================================================== *)
(** ** Substrings *)
(* ================================================================== *)

Lemma prefix_empty (s : string) : String.prefix EmptyString s = true.
Proof. now destruct s. Qed.

Lemma prefix_append (p x : string) : String.prefix p (p ++ x) = true.
Proof.
  induction p as [|a p IH]; [apply prefix_empty|].
  cbn. destruct (Ascii.ascii_dec a a); [exact IH | contradiction].
Qed.

Lemma prefix_contains (p s : string) :
  String.prefix p s = true -> Text.contains p s = true.
Proof. intros H. destruct s; cbn [Text.contains]; now rewrite H. Qed.

Lemma contains_append_r (p a b : string) :
  Text.contains p b = true -> Text.contains p (a ++ b) = true.
Proof.
  intros H. induction a as [|c a IH]; [exact H|].
  change (String c a ++ b) with (String c (a ++ b)).
  cbn [Text.contains]. rewrite IH. apply orb_true_r.
Qed.

Lemma prefix_append_l (a : string) :
  forall p b, String.prefix p a = true -> String.prefix p (a ++ b) = true.
Proof.
  induction a as [|c a IH]; intros p b H.
  - destruct p; [apply prefix_empty | discriminate].
  - destruct p as [|c0 p]; [reflexivity|].
    cbn in *. destruct (Ascii.ascii_dec c0 c); [now apply IH | discriminate].
Qed.

Lemma contains_append_l (p a b : string) :
  Text.contains p a = true -> Text.contains p (a ++ b) = true.
Proof.
  induction a as [|c a IH]; intros H.
  - cbn [Text.contains] in H. rewrite orb_false_r in H.
    apply prefix_contains. now apply (prefix_append_l EmptyString).
  - change (String c a ++ b) with (String c (a ++ b)).
    cbn [Text.contains] in *. apply orb_true_iff in H. destruct H as [H|H].
    + pose proof (prefix_append_l (String c a) p b H) as Hp.
      change (String c a ++ b) with (String c (a ++ b)) in Hp.
      rewrite Hp. reflexivity.
    + rewrite (IH H). apply orb_true_r.
Qed.

Lemma lower_append (a b : string) :
  Text.lower (a ++ b) = Text.lower a ++ Text.lower b.
Proof. induction a as [|c a IH]; [reflexivity|]. cbn. now rewrite IH. Qed.

(* ================================================================== *)
(** ** The failed units *)
(* ================================================================== *)

Lemma has_no_space_append (a b : string) :
  has_no_space a = true -> has_no_space b = true ->
  has_no_space (a ++ b) = true.
Proof.
  intros Ha Hb. induction a as [|c a IH]; [exact Hb|].
  cbn [has_no_space] in *. apply andb_true_iff in Ha. destruct Ha as [Hc Ha].
  cbn. now rewrite Hc, IH.
Qed.

Lemma take_field_token (t rest : string) :
  has_no_space t = true -> Text.take_field (t ++ String " " rest) = t.
Proof.
  intros H. induction t as [|c t IH]; [reflexivity|].
  cbn [has_no_space] in H. apply andb_true_iff in H. destruct H as [Hc H].
  apply negb_true_iff in Hc. cbn. now rewrite Hc, IH.
Qed.

Lemma first_field_token (t rest : string) :
  has_no_space t = true -> Text.is_empty t = false ->
  Text.first_field (t ++ String " " rest) = Some t.
Proof.
  intros H Hne. destruct t as [|c t]; [discriminate|].
  pose proof (take_field_token (String c t) rest H) as Ht.
  cbn [has_no_space] in H. apply andb_true_iff in H. destruct H as [Hc H].
  apply negb_true_iff in Hc.
  unfold Text.first_field.
  change (String c t ++ String " " rest) with (String c (t ++ String " " rest)) in *.
  cbn [Text.lstrip]. rewrite Hc. now rewrite Ht.
Qed.

(** X7.  The name [check_services_status] reports for a line of
    [systemctl list-units] is the first whitespace-separated field of the
    line: the unit when the line starts with it, and the bullet when the
    line starts with the bullet systemd prints before a failed unit. *)
Theorem failed_unit_is_first_field (unit_name rest : string) :
  has_no_space unit_name = true ->
  failed_units [unit_name ++ ".service loaded failed failed " ++ rest]
  = [unit_name ++ ".service"] /\
  failed_units ["● " ++ unit_name ++ ".service loaded failed failed " ++ rest]
  = ["●"].
Proof.
  intros Hu.
  assert (Hs :
    Text.contains ".service"
      (unit_name ++ ".service loaded failed failed " ++ rest) = true).
  { apply contains_append_r. apply prefix_contains.
    apply (prefix_append ".service"). }
  assert (Hf :
    Text.contains "failed"
      (unit_name ++ ".service loaded failed failed " ++ rest) = true).
  { apply contains_append_r.
    change (".service loaded failed failed " ++ rest)
      with (".service loaded " ++ "failed" ++ " failed " ++ rest).
    apply contains_append_r. apply prefix_contains.
    apply (prefix_append "failed"). }
  split.
  - cbn [failed_units]. rewrite Hs, Hf. cbn [andb].
    change (unit_name ++ ".service loaded failed failed " ++ rest)
      with (unit_name ++ ".service" ++ String " " ("loaded failed failed " ++ rest)).
    rewrite <- append_assoc.
    rewrite first_field_token; [reflexivity | |].
    + now apply has_no_space_append.
    + destruct unit_name; reflexivity.
  - cbn [failed_units].
    rewrite (contains_append_r ".service" "● " _ Hs).
    rewrite (contains_append_r "failed" "● " _ Hf). reflexivity.
Qed.

(** X7 on the unit nginx. *)
Lemma failed_unit_is_first_field_witness :
  failed_units ["nginx.service loaded failed failed A high performance web server"]
  = ["nginx.service"] /\
  failed_units ["● nginx.service loaded failed failed A high performance web server"]
  = ["●"].
Proof.
  exact (failed_unit_is_first_field "nginx" "A high performance web server"
                                    eq_refl).
Defined.

(* ================================================================== *)
(** ** Lines written back to a file *)
(* ================================================================== *)











(* ================================================================== *)
(** ** The tailer under faults *)
(* ================================================================== *)

Lemma log_message_pair (env : Env) (message : string) (w : World) :
  log_message env message w = (Ok tt, snd (log_message env message w)).
Proof. reflexivity. Qed.

Lemma check_system_errors_cases (env : Env) (w : World) :
  check_system_errors env w = tail_outcome env w.
Proof.
  unfold check_system_errors, tail_outcome, tail_failed.
  unfold try_except at 1. unfold check_fault at 1. unfold bind at 1.
  destruct (getsize_fault env) as [e|].
  { unfold raise at 1. cbv beta iota. unfold bind.
    rewrite log_message_pair. reflexivity. }
  unfold ret at 1. cbv beta iota.
  unfold bind at 1. unfold get at 1. cbv beta iota.
  unfold bind at 1. rewrite read_last_position_run.
  set (size := Z.of_nat (String.length (log_file w))).
  assert (Hseek : forall last : Z,
    (let (r, w') :=
       (check_fault (log_read_fault env);;;
        (if ((if (size <? last)%Z then 0%Z else last) <? 0)%Z
         then raise (Exn ValueError "negative seek position")
         else ret tt);;;
        try_except
          (save_last_position env
             (Z.max (if (size <? last)%Z then 0%Z else last) size);;;
           ret
             (scan_lines
                (Text.readlines
                   (Text.drop
                      (Z.to_nat (if (size <? last)%Z then 0%Z else last))
                      (log_file w)))))
          (fun e : exn =>
           log_message env ("Error checking system logs: " ++ exn_text e);;;
           ret
             (scan_lines
                (Text.readlines
                   (Text.drop
                      (Z.to_nat (if (size <? last)%Z then 0%Z else last))
                      (log_file w)))))) w in
     match r with
     | Ok a => (Ok a, w')
     | Raise e =>
         (log_message env ("Error checking system logs: " ++ exn_text e);;;
          ret []) w'
     end)
    = match log_read_fault env with
      | Some e =>
          (Ok [],
           snd (log_message env
                  ("Error checking system logs: " ++ exn_text e) w))
      | None =>
          if ((if (size <? last)%Z then 0%Z else last) <? 0)%Z
          then
            (Ok [],
             snd (log_message env
                    ("Error checking system logs: "
                     ++ exn_text (Exn ValueError "negative seek position"))
                    w))
          else
            match ensure_dirs_fault env, state_write_fault env with
            | Some e, _ =>
                (Ok (scan_lines
                       (Text.readlines
                          (Text.drop
                             (Z.to_nat (if (size <? last)%Z then 0%Z else last))
                             (log_file w)))),
                 snd (log_message env
                        ("Error checking system logs: " ++ exn_text e) w))
            | None, Some e =>
                (Ok (scan_lines
                       (Text.readlines
                          (Text.drop
                             (Z.to_nat (if (size <? last)%Z then 0%Z else last))
                             (log_file w)))),
                 snd (log_message env
                        ("Error checking system logs: " ++ exn_text e) w))
            | None, None =>
                (Ok (scan_lines
                       (Text.readlines
                          (Text.drop
                             (Z.to_nat (if (size <? last)%Z then 0%Z else last))
                             (log_file w)))),
                 snd (write_state
                        (Z.max (if (size <? last)%Z then 0%Z else last) size)
                        w))
            end
      end).
  { intros last. unfold check_fault. unfold bind at 1.
    destruct (log_read_fault env) as [e|].
    { unfold raise at 1. cbv beta iota. unfold bind.
      rewrite log_message_pair. reflexivity. }
    unfold ret at 1. cbv beta iota. unfold bind at 1.
    destruct ((if (size <? last)%Z then 0%Z else last) <? 0)%Z.
    { unfold raise at 1. cbv beta iota. unfold bind.
      rewrite log_message_pair. reflexivity. }
    unfold ret at 1. cbv beta iota.
    unfold try_except, bind at 1. rewrite save_last_position_run.
    destruct (ensure_dirs_fault env) as [e|].
    { cbv beta iota. unfold bind. rewrite log_message_pair. reflexivity. }
    destruct (state_write_fault env) as [e|].
    { cbv beta iota. unfold bind. rewrite log_message_pair. reflexivity. }
    reflexivity. }
  destruct (state_read_fault env) as [e|].
  - destruct (is_file_not_found e || is_value_error e).
    + cbv beta iota. apply Hseek.
    + cbv beta iota. unfold bind. rewrite log_message_pair. reflexivity.
  - cbv beta iota. apply Hseek.
Qed.

Lemma log_message_world (env : Env) (message : string) (w : World) :
  let w' := snd (log_message env message w) in
  state_file w' = state_file w /\
  log_file w' =
    (if log_append_denied env then log_file w
     else log_file w ++ log_entry_of env message w) /\
  stdout w' =
    (if log_append_denied env then log_entry_of env message w :: stdout w
     else stdout w) /\
  (log_size w <= log_size w')%Z.
Proof.
  unfold log_message, log_entry_of, log_size, bind, get, log_write.
  cbn [snd state_file log_file stdout].
  destruct (log_append_denied env); cbn [negb]; repeat split; try lia.
  rewrite length_append. lia.
Qed.

Lemma stored_offset_same (w w' : World) :
  state_file w' = state_file w -> stored_offset w' = stored_offset w.
Proof. intros H. unfold stored_offset. now rewrite H. Qed.

(** Whatever the host does, one call of the tailer keeps the stored offset
    inside the file. *)
Lemma check_system_errors_keeps_offset (env : Env) (w : World) :
  (0 <= stored_offset w <= log_size w)%Z ->
  let w' := snd (check_system_errors env w) in
  (0 <= stored_offset w' <= log_size w')%Z /\ (log_size w <= log_size w')%Z.
Proof.
  intros Hr. rewrite check_system_errors_cases. unfold tail_outcome.
  assert (Hfail : forall (e : exn) (r : Result (list string)),
    let w' := snd (r, tail_failed env e w) in
    (0 <= stored_offset w' <= log_size w')%Z /\ (log_size w <= log_size w')%Z).
  { intros e r. cbn [snd]. unfold tail_failed.
    destruct (log_message_world env
                ("Error checking system logs: " ++ exn_text e) w)
      as (S & _ & _ & Hsize).
    rewrite (stored_offset_same _ _ S). lia. }
  assert (Hseek : forall last : Z,
    (0 <= last <= log_size w)%Z ->
    let w' :=
      snd (match log_read_fault env with
           | Some e => (Ok [], tail_failed env e w)
           | None =>
               if ((if (log_size w <? last)%Z then 0%Z else last) <? 0)%Z
               then (Ok [], tail_failed env
                              (Exn ValueError "negative seek position") w)
               else
                 match ensure_dirs_fault env, state_write_fault env with
                 | Some e, _ =>
                     (Ok (scan_lines
                            (Text.readlines
                               (Text.drop
                                  (Z.to_nat (if (log_size w <? last)%Z
                                             then 0%Z else last))
                                  (log_file w)))), tail_failed env e w)
                 | None, Some e =>
                     (Ok (scan_lines
                            (Text.readlines
                               (Text.drop
                                  (Z.to_nat (if (log_size w <? last)%Z
                                             then 0%Z else last))
                                  (log_file w)))), tail_failed env e w)
                 | None, None =>
                     (Ok (scan_lines
                            (Text.readlines
                               (Text.drop
                                  (Z.to_nat (if (log_size w <? last)%Z
                                             then 0%Z else last))
                                  (log_file w)))),
                      snd (write_state
                             (Z.max (if (log_size w <? last)%Z
                                     then 0%Z else last) (log_size w)) w))
                 end
           end) in
    (0 <= stored_offset w' <= log_size w')%Z /\ (log_size w <= log_size w')%Z).
  { intros last Hl.
    destruct (log_read_fault env) as [e|]; [apply Hfail|].
    destruct ((if (log_size w <? last)%Z then 0%Z else last) <? 0)%Z;
      [apply Hfail|].
    destruct (ensure_dirs_fault env) as [e|]; [apply Hfail|].
    destruct (state_write_fault env) as [e|]; [apply Hfail|].
    cbn [snd]. rewrite stored_offset_write_state.
    change (log_size (snd (write_state _ w))) with (log_size w).
    destruct (log_size w <? last)%Z; lia. }
  fold (log_size w).
  destruct (getsize_fault env) as [e|]; [apply Hfail|].
  destruct (state_read_fault env) as [e|].
  - destruct (is_file_not_found e || is_value_error e); [|apply Hfail].
    apply Hseek. unfold log_size. lia.
  - apply Hseek. exact Hr.
Qed.

(** X9.  Along any interleaving of [log_message] calls and tailer calls,
    whatever faults the host injects, a stored offset that lies inside the
    log file stays inside it. *)
Theorem tailer_offset_stays_in_file (ops : list LogOp) (w : World) :
  (0 <= stored_offset w <= log_size w)%Z ->
  (0 <= stored_offset (snd (run_log_ops ops w))
     <= log_size (snd (run_log_ops ops w)))%Z.
Proof.
  revert w. induction ops as [|op rest IH]; intros w Hr; [exact Hr|].
  destruct op as [env message|env]; cbn [run_log_ops].
  - apply IH.
    destruct (log_message_world env message w) as (S & _ & _ & Hsize).
    rewrite (stored_offset_same _ _ S). lia.
  - pose proof (check_system_errors_keeps_offset env w Hr) as [H _].
    destruct (check_system_errors env w) as [r w1]. cbn [snd] in H.
    specialize (IH w1 H).
    destruct (run_log_ops rest w1) as [returned w']. exact IH.
Qed.

(** X9 on a run in which the state file cannot be written once. *)
Lemma tailer_offset_stays_in_file_witness :
  let ops := [Logged healthy_host "Error checking updates: apt missing";
              Tailed readonly_state_host;
              Tailed healthy_host] in
  (0 <= stored_offset (snd (run_log_ops ops pending_world))
     <= log_size (snd (run_log_ops ops pending_world)))%Z.
Proof.
  intros ops. apply (tailer_offset_stays_in_file ops pending_world).
  vm_compute. split; discriminate.
Defined.

Lemma no_newline_append (a b : string) :
  no_newline a = true -> no_newline b = true -> no_newline (a ++ b) = true.
Proof.
  intros Ha Hb. induction a as [|c a IH]; [exact Hb|].
  cbn [no_newline] in *. apply andb_true_iff in Ha. destruct Ha as [Hc Ha].
  cbn. now rewrite Hc, IH.
Qed.

Lemma readlines_single (s : string) :
  no_newline s = true -> Text.readlines (s ++ Text.nl) = [s ++ Text.nl].
Proof.
  intros H. induction s as [|c s IH]; [reflexivity|].
  cbn [no_newline] in H. apply andb_true_iff in H. destruct H as [Hc H].
  apply negb_true_iff in Hc.
  change (String c s ++ Text.nl) with (String c (s ++ Text.nl)).
  cbn [Text.readlines]. now rewrite Hc, (IH H).
Qed.

(** An entry whose message holds "error" in any case is an error line, and
    is the one line [log_message] writes when stamp and message hold no
    newline. *)
Lemma scan_log_entry (env : Env) (message : string) (w : World) :
  Text.contains "error" (Text.lower message) = true ->
  no_newline (strftime_now env (log_entries w)) = true ->
  no_newline message = true ->
  scan_lines (Text.readlines (log_entry_of env message w))
  = ["🚨 System Error: " ++ Text.strip (log_entry_of env message w)].
Proof.
  intros He Hs Hm. unfold log_entry_of.
  set (stamp := strftime_now env (log_entries w)) in *.
  assert (Hline : no_newline ("[" ++ stamp ++ "] " ++ message) = true).
  { apply (no_newline_append "["); [reflexivity|].
    apply no_newline_append; [exact Hs|].
    apply (no_newline_append "] "); [reflexivity | exact Hm]. }
  assert (Hassoc : "[" ++ stamp ++ "] " ++ message ++ Text.nl
                   = ("[" ++ stamp ++ "] " ++ message) ++ Text.nl).
  { now rewrite !append_assoc. }
  assert (Herr : is_error_line ("[" ++ stamp ++ "] " ++ message ++ Text.nl)
                 = true).
  { unfold is_error_line.
    rewrite (lower_append "[" _), (lower_append stamp _),
      (lower_append "] " _), (lower_append message _).
    assert (H : Text.contains "error"
                  (Text.lower "[" ++ Text.lower stamp ++ Text.lower "] "
                   ++ Text.lower message ++ Text.lower Text.nl) = true).
    { do 3 apply contains_append_r. now apply contains_append_l. }
    now rewrite H. }
  rewrite Hassoc in *. rewrite (readlines_single _ Hline).
  unfold scan_lines. cbn [filter]. rewrite Herr. reflexivity.
Qed.




Lemma check_system_errors_negative (env : Env) (w : World) :
  tail_faultless env = true ->
  (stored_offset w < 0)%Z ->
  check_system_errors env w
  = (Ok [], tail_failed env (Exn ValueError "negative seek position") w).
Proof.
  intros Hf Hneg.
  destruct (tail_faultless_inv env Hf) as (F1 & F2 & F3 & _ & _).
  rewrite check_system_errors_cases. unfold tail_outcome.
  rewrite F1, F2, F3.
  assert (H1 : (Z.of_nat (String.length (log_file w)) <? stored_offset w)%Z
               = false) by (apply Z.ltb_ge; lia).
  assert (H2 : (stored_offset w <? 0)%Z = true) by (apply Z.ltb_lt; lia).
  now rewrite H1, H2.
Qed.

(** X11.  A state file holding a negative number is never repaired: every
    call of the tailer, even without any fault, fails on the seek, returns
    nothing and leaves the number where it is, so no line of the log is
    reported any more. *)
Theorem negative_offset_blocks_tailer (ops : list LogOp) (w : World) :
  forallb op_faultless ops = true ->
  (stored_offset w < 0)%Z ->
  Forall (fun returned => returned = []) (fst (run_log_ops ops w)) /\
  stored_offset (snd (run_log_ops ops w)) = stored_offset w.
Proof.
  revert w. induction ops as [|op rest IH]; intros w Hf Hneg.
  - split; [constructor | reflexivity].
  - cbn [forallb] in Hf. apply andb_true_iff in Hf. destruct Hf as [Hop Hf].
    destruct op as [env message|env]; cbn [run_log_ops].
    + destruct (log_message_world env message w) as (S & _).
      pose proof (stored_offset_same _ _ S) as Hoff.
      destruct (IH (snd (log_message env message w)) Hf) as [H1 H2];
        [rewrite Hoff; exact Hneg|].
      split; [exact H1 | now rewrite H2].
    + cbn [op_faultless] in Hop.
      rewrite (check_system_errors_negative env w Hop Hneg).
      set (w1 := tail_failed env (Exn ValueError "negative seek position") w).
      assert (Hoff : stored_offset w1 = stored_offset w).
      { apply stored_offset_same. unfold w1, tail_failed.
        apply log_message_world. }
      destruct (IH w1 Hf) as [H1 H2]; [rewrite Hoff; exact Hneg|].
      destruct (run_log_ops rest w1) as [returned w']. cbn [fst snd] in *.
      split; [constructor; [reflexivity | exact H1] | now rewrite H2].
Qed.

(** X11 on a state file holding -5. *)
Lemma negative_offset_blocks_tailer_witness :
  let ops := [Tailed healthy_host;
              Logged healthy_host "Webhook error: timed out";
              Tailed healthy_host] in
  Forall (fun returned => returned = []) (fst (run_log_ops ops corrupt_world)) /\
  stored_offset (snd (run_log_ops ops corrupt_world)) = (-5)%Z.
Proof.
  intros ops.
  exact (negative_offset_blocks_tailer ops corrupt_world eq_refl eq_refl).
Defined.

(* ================================================================== *)
(** ** Failures that come back as findings *)
(* ================================================================== *)

(** X12.  A delivery that fails is logged as "Webhook error: ...", an entry
    that holds the word "error": the next scan of the log returns it as a
    finding, so the failure is itself sent to the webhook by a later
    iteration. *)
Theorem failed_delivery_is_reported_later (env env' : Env) (message : string)
    (w : World) (c : Config) (text : string) :
  config_file w = ConfigJson c ->
  config_missing (Some c) = false ->
  Text.is_empty (Text.strip (get_or webhook_url "" (Some c))) = false ->
  requests_post env = Some text ->
  log_append_denied env = false ->
  tail_faultless env' = true ->
  stored_offset w = log_size w ->
  no_newline (strftime_now env (log_entries w)) = true ->
  no_newline text = true ->
  exists w1 w2,
    send_webhook env message w = (Ok tt, w1) /\
    check_system_errors env' w1
    = (Ok ["🚨 System Error: "
           ++ Text.strip (log_entry_of env ("Webhook error: " ++ text) w)],
       w2).
Proof.
  intros Hc Hm Hu Hp Hd Hf Hoff Hstamp Htext.
  destruct (send_webhook_configured env message w c Hc Hm Hu)
    as (w1 & R1 & _ & S1 & L1).
  rewrite Hp, Hd in L1. fold (log_entry_of env ("Webhook error: " ++ text) w) in L1.
  exists w1. eexists. split; [exact R1|].
  assert (Hoff1 : stored_offset w1 = log_size w)
    by (rewrite (stored_offset_same _ _ S1); exact Hoff).
  rewrite (check_system_errors_faultless env' w1 Hf)
    by (rewrite Hoff1; unfold log_size; lia).
  rewrite Hoff1, L1.
  assert (Hlt : (Z.of_nat (String.length
                             (log_file w
                              ++ log_entry_of env ("Webhook error: " ++ text) w))
                 <? log_size w)%Z = false).
  { apply Z.ltb_ge. unfold log_size. rewrite length_append. lia. }
  rewrite Hlt. unfold log_size. rewrite Nat2Z.id, drop_length_app.
  rewrite scan_log_entry; [reflexivity | | exact Hstamp |].
  - rewrite lower_append. now apply contains_append_l.
  - now apply no_newline_append.
Qed.

(** X12 on a webhook that times out. *)
Lemma failed_delivery_is_reported_later_witness :
  exists w1 w2,
    send_webhook loaded_host "disk full"
                 (fresh_world (ConfigJson example_config) None) = (Ok tt, w1) /\
    check_system_errors healthy_host w1
    = (Ok ["🚨 System Error: [2024-01-01 00:00:00] Webhook error: HTTPSConnectionPool: Max retries exceeded"],
       w2).
Proof.
  exact (failed_delivery_is_reported_later loaded_host healthy_host "disk full"
           (fresh_world (ConfigJson example_config) None) example_config
           "HTTPSConnectionPool: Max retries exceeded"
           eq_refl eq_refl eq_refl eq_refl eq_refl eq_refl eq_refl eq_refl
           eq_refl).
Defined.

(* ================================================================== *)
(** ** What an iteration needs and what it leaves alone *)
(* ================================================================== *)


Lemma iteration_not_due_state (c : Cycle) (last : Z) (w : World) :
  daily_due (gate_now c) last = false ->
  state_file (snd (iteration c last w)) = state_file w.
Proof.
  intros Hdue. unfold iteration. rewrite Hdue. unfold bind at 1.
  rewrite frequent_checks_eq.
  destruct (status_checks_run (frequent c) false [] w)
    as (r1 & w1 & R1 & S1 & _).
  rewrite R1. destruct r1 as [m1|e]; [|exact S1].
  unfold bind.
  destruct (dispatch_and_sleep_run (dispatch c) m1 w1) as (w2 & R2 & S2 & _).
  rewrite R2. unfold ret. cbn [snd]. congruence.
Qed.

(** X14.  No iteration of the loop changes the configuration; the
    authentication log is changed only by an iteration in which the daily
    checks are due and more than 5 failed logins are counted; and the
    offset of the tailer is moved only by an iteration in which the daily
    checks are due. *)
Theorem iteration_leaves_files_alone (c : Cycle) (last : Z) (w : World) :
  config_file (snd (iteration c last w)) = config_file w /\
  (auth_log (snd (iteration c last w)) <> auth_log w ->
   daily_due (gate_now c) last = true /\ 5 < failed_logins (daily c) w) /\
  (state_file (snd (iteration c last w)) <> state_file w ->
   daily_due (gate_now c) last = true).
Proof.
  split; [|split].
  - destruct (iteration_run c last w) as (r & w' & R & C & _).
    now rewrite R.
  - destruct (iteration_run c last w) as (r & w' & R & _ & H).
    rewrite R. cbn [snd]. intros Hne. destruct r as [rep|e].
    + destruct H as (_ & _ & cpu & mem & disk & posted & _ & _ & _ & _ & H).
      destruct (daily_due (gate_now c) last).
      * destruct H as (cpu' & mem' & disk' & later & _ & _ & _ & _ & _ & _ & A).
        split; [reflexivity|].
        destruct (5 <? failed_logins (daily c) w) eqn:E.
        -- now apply Nat.ltb_lt.
        -- contradiction.
      * destruct H as (_ & _ & A). contradiction.
    + destruct H as (_ & added & (_ & A & _) & _). contradiction.
  - intros Hne. destruct (daily_due (gate_now c) last) eqn:E; [reflexivity|].
    exfalso. apply Hne. now apply iteration_not_due_state.
Qed.
